(** * Utilisation-rate dashboard: the row projection of [table-script.tsx]

    The repository holds one React view in two versions: the inline
    map-then-filter pipeline of [src/table-script.tsx] and its refactoring
    into predicate helpers (the second source file).  Both turn the person
    records of [source-data.json] into the rows handed to the table widget.

    This development embeds both pipelines together with the parts of the
    ECMAScript runtime they call ([parseFloat], [Number.prototype.toFixed],
    number-to-string conversion, [Date] month arithmetic, [padStart],
    [Array.prototype.find]/[map]/[filter]) and proves what the rows look
    like.  JavaScript numbers are IEEE binary64 values, taken from the
    standard library's [SpecFloat]; strings are byte strings (UTF-8).  The
    system clock is an explicit argument: a run happens at one instant, so
    every [new Date()] of a run reads the same [clock]. *)

From Stdlib Require Import ZArith List String Ascii Bool Lia.
From Stdlib Require Import Floats.SpecFloat.
Import ListNotations.

Local Open Scope string_scope.
Local Open Scope Z_scope.

(** ** Strings *)

Module JSString.

(** [s.padStart(targetLength, fill)] for a one-character-or-longer filler:
    the filler is repeated, truncated to the missing length, and put in
    front; a string already long enough is returned as it is. *)
Fixpoint repeat_fill (fill cur : string) (n : nat) : string :=
  match n with
  | O => ""
  | S n' =>
      match cur with
      | String c rest => String c (repeat_fill fill rest n')
      | EmptyString =>
          match fill with
          | String c rest => String c (repeat_fill fill rest n')
          | EmptyString => ""
          end
      end
  end.

Definition padStart (targetLength : nat) (fill : string) (s : string) : string :=
  if Nat.leb targetLength (String.length s) then s
  else repeat_fill fill fill (targetLength - String.length s) ++ s.

Definition digit_char (d : Z) : ascii :=
  ascii_of_nat (48 + Z.to_nat d).

(** Decimal numeral of a non-negative integer, most significant digit
    first; [fuel] bounds the number of digits. *)
Fixpoint digits_loop (fuel : nat) (n : Z) (acc : string) : string :=
  match fuel with
  | O => acc
  | S fuel' =>
      let acc' := String (digit_char (n mod 10)) acc in
      if n <? 10 then acc' else digits_loop fuel' (n / 10) acc'
  end.

Definition of_nonneg (n : Z) : string :=
  digits_loop (S (Z.to_nat (Z.log2 n))) n "".

(** Number-to-string conversion of an integer-valued number below 10^21 in
    magnitude: the decimal numeral, with a minus sign when negative. *)
Definition of_Z (n : Z) : string :=
  if n <? 0 then "-" ++ of_nonneg (- n) else of_nonneg n.

Fixpoint zeros (n : nat) : string :=
  match n with
  | O => ""
  | S n' => String "0" (zeros n')
  end.

Fixpoint take (n : nat) (s : string) : string :=
  match n, s with
  | S n', String c rest => String c (take n' rest)
  | _, _ => ""
  end.

Fixpoint drop (n : nat) (s : string) : string :=
  match n, s with
  | S n', String _ rest => drop n' rest
  | _, _ => s
  end.

(** Template-literal conversion of a possibly [undefined] string. *)
Definition of_optional (v : option string) : string :=
  match v with
  | Some s => s
  | None => "undefined"
  end.

(** Truthiness of a possibly [undefined] string: only a present,
    non-empty string is truthy. *)
Definition truthy (v : option string) : bool :=
  match v with
  | Some (String _ _) => true
  | _ => false
  end.

(** [v === lit] for a possibly [undefined] string against a literal. *)
Definition strict_eq (v : option string) (lit : string) : bool :=
  match v with
  | Some s => String.eqb s lit
  | None => false
  end.

End JSString.

(** ** Numbers: IEEE binary64 *)

Module JSNumber.

Definition prec : Z := 53.
Definition emax : Z := 1024.

Definition Number : Type := spec_float.

Definition NaN : Number := S754_nan.
Definition mul (x y : Number) : Number := SFmul prec emax x y.

(** The number value of the integer [n]: round to nearest, ties to even. *)
Definition of_Z (n : Z) : Number := binary_normalize prec emax n 0 false.

(** The number value of the positive rational [num / den]. *)
Definition of_ratio (sign : bool) (num den : positive) : Number :=
  let '(q, e, l) := SFdiv_core_binary prec emax (Zpos num) 0 (Zpos den) 0 in
  binary_round_aux prec emax sign q e l.

(** The number value of [m * 10^e], the mathematical value of a decimal
    literal with digits [m] and decimal exponent [e]. *)
Definition of_decimal (sign : bool) (m : Z) (e : Z) : Number :=
  match m with
  | Zpos p =>
      if 0 <=? e
      then binary_normalize prec emax (if sign then - (m * 10 ^ e) else m * 10 ^ e) 0 sign
      else of_ratio sign p (Z.to_pos (10 ^ (- e)))
  | _ => S754_zero sign
  end.

(** The exact value of a finite positive number as a fraction. *)
Definition ratio_of (m : positive) (e : Z) : Z * Z :=
  if 0 <=? e then (Zpos m * 2 ^ e, 1) else (Zpos m, 2 ^ (- e)).

Definition same_number (x y : Number) : bool :=
  match x, y with
  | S754_finite s1 m1 e1, S754_finite s2 m2 e2 =>
      Bool.eqb s1 s2 && Pos.eqb m1 m2 && Z.eqb e1 e2
  | S754_zero s1, S754_zero s2 => Bool.eqb s1 s2
  | S754_infinity s1, S754_infinity s2 => Bool.eqb s1 s2
  | S754_nan, S754_nan => true
  | _, _ => false
  end.

(** *** [parseFloat]

    Leading white space and line terminators are skipped, then the longest
    prefix that is a [StrDecimalLiteral] is read: an optional sign, then
    [Infinity] or decimal digits with an optional fraction and an optional
    exponent.  No such prefix gives [NaN].  The value is the literal's
    mathematical value rounded to binary64 (for literals of more than 20
    significant digits the standard also admits a neighbouring result; the
    exactly rounded one is taken here, as engines do). *)

Definition code (c : ascii) : nat := nat_of_ascii c.

Definition ascii_space (c : ascii) : bool :=
  let n := code c in
  (Nat.eqb n 9 || Nat.eqb n 10 || Nat.eqb n 11 || Nat.eqb n 12
   || Nat.eqb n 13 || Nat.eqb n 32)%bool.

(** UTF-8 encodings of the non-ASCII white space and line terminators:
    U+00A0; U+1680; U+2000..U+200A, U+2028, U+2029, U+202F; U+205F;
    U+3000; U+FEFF. *)
Definition space2 (a b : ascii) : bool :=
  (Nat.eqb (code a) 194 && Nat.eqb (code b) 160)%bool.

Definition space3 (a b c : ascii) : bool :=
  let x := code a in let y := code b in let z := code c in
  ((Nat.eqb x 225 && Nat.eqb y 154 && Nat.eqb z 128)
   || (Nat.eqb x 226 && Nat.eqb y 128
       && ((Nat.leb 128 z && Nat.leb z 138)
           || Nat.eqb z 168 || Nat.eqb z 169 || Nat.eqb z 175))
   || (Nat.eqb x 226 && Nat.eqb y 129 && Nat.eqb z 159)
   || (Nat.eqb x 227 && Nat.eqb y 128 && Nat.eqb z 128)
   || (Nat.eqb x 239 && Nat.eqb y 187 && Nat.eqb z 191))%bool.

Fixpoint trimStart (s : string) : string :=
  match s with
  | String a r1 =>
      if ascii_space a then trimStart r1
      else
        match r1 with
        | String b r2 =>
            if space2 a b then trimStart r2
            else
              match r2 with
              | String c r3 => if space3 a b c then trimStart r3 else s
              | EmptyString => s
              end
        | EmptyString => s
        end
  | EmptyString => s
  end.

Definition digit_value (c : ascii) : option Z :=
  let n := code c in
  if (Nat.leb 48 n && Nat.leb n 57)%bool then Some (Z.of_nat (n - 48)) else None.

(** Reads decimal digits off the front of [s]: the value of [acc]
    followed by those digits, how many were read, and the rest. *)
Fixpoint read_digits (acc : Z) (count : nat) (s : string) : Z * nat * string :=
  match s with
  | String c rest =>
      match digit_value c with
      | Some d => read_digits (10 * acc + d) (S count) rest
      | None => (acc, count, s)
      end
  | EmptyString => (acc, count, s)
  end.

(** The exponent part [e], [E] with an optional sign and at least one
    digit; anything else is not part of the literal and counts as 0. *)
Definition read_exponent (s : string) : Z :=
  match s with
  | String c rest =>
      if (Ascii.eqb c "e" || Ascii.eqb c "E")%bool then
        let '(neg, rest') :=
          match rest with
          | String "+" r => (false, r)
          | String "-" r => (true, r)
          | _ => (false, rest)
          end in
        let '(v, n, _) := read_digits 0 0 rest' in
        match n with
        | O => 0
        | S _ => if neg then - v else v
        end
      else 0
  | EmptyString => 0
  end.

Definition parseFloat (input : string) : Number :=
  let s := trimStart input in
  let '(neg, s1) :=
    match s with
    | String "+" r => (false, r)
    | String "-" r => (true, r)
    | _ => (false, s)
    end in
  if String.prefix "Infinity" s1 then S754_infinity neg
  else
    let '(m1, n1, r1) := read_digits 0 0 s1 in
    let '(m2, n2, r2) :=
      match r1 with
      | String "." r => read_digits m1 0 r
      | _ => (m1, O, r1)
      end in
    match (n1 + n2)%nat with
    | O => NaN
    | S _ => of_decimal neg m2 (read_exponent r2 - Z.of_nat n2)
    end.

(** *** Number-to-string conversion (radix 10)

    For a finite non-zero [x] the standard asks for integers [n], [k], [s]
    with [k >= 1], [10^(k-1) <= s < 10^k], [s * 10^(n-k)] rounding to [x],
    and [k] as small as possible; among several [s] the one closest to
    [x] is taken. *)

(** [num / den < 10^n] *)
Definition lt_pow10 (num den n : Z) : bool :=
  if 0 <=? n then num <? den * 10 ^ n else num * 10 ^ (- n) <? den.

Fixpoint find_magnitude (fuel : nat) (num den n : Z) : Z :=
  match fuel with
  | O => n
  | S fuel' =>
      if lt_pow10 num den n then n else find_magnitude fuel' num den (n + 1)
  end.

(** The [n0] with [10^(n0-1) <= num/den < 10^n0]; binary64 values lie
    between 10^-324 and 10^309. *)
Definition magnitude (num den : Z) : Z := find_magnitude 800 num den (-400).

Definition scale10 (num den q : Z) : Z * Z :=
  if 0 <=? q then (num, den * 10 ^ q) else (num * 10 ^ (- q), den).

Definition roundtrips (x : Number) (c q : Z) : bool :=
  same_number (of_decimal false c q) x.

Fixpoint shortest (fuel : nat) (x : Number) (num den n0 k : Z) : Z * Z :=
  let q := n0 - k in
  let '(vn, vd) := scale10 num den q in
  let lo := vn / vd in
  let hi := lo + 1 in
  match fuel with
  | O => (if 2 * (vn - lo * vd) <=? vd then lo else hi, q)
  | S fuel' =>
      match roundtrips x lo q, roundtrips x hi q with
      | true, true => (if 2 * (vn - lo * vd) <=? vd then lo else hi, q)
      | true, false => (lo, q)
      | false, true => (hi, q)
      | false, false => shortest fuel' x num den n0 (k + 1)
      end
  end.

Fixpoint strip_zeros (fuel : nat) (c q : Z) : Z * Z :=
  match fuel with
  | O => (c, q)
  | S fuel' =>
      if (0 <? c) && (c mod 10 =? 0) then strip_zeros fuel' (c / 10) (q + 1)
      else (c, q)
  end.

Definition layout (ds : string) (n : Z) : string :=
  let k := Z.of_nat (String.length ds) in
  if (k <=? n) && (n <=? 21) then
    ds ++ JSString.zeros (Z.to_nat (n - k))
  else if (0 <? n) && (n <=? 21) then
    JSString.take (Z.to_nat n) ds ++ "." ++ JSString.drop (Z.to_nat n) ds
  else if (-6 <? n) && (n <=? 0) then
    "0." ++ JSString.zeros (Z.to_nat (- n)) ++ ds
  else
    let e := n - 1 in
    let tail := "e" ++ (if e <? 0 then "-" else "+") ++ JSString.of_nonneg (Z.abs e) in
    match ds with
    | String d EmptyString => String d tail
    | String d rest => String d ("." ++ rest ++ tail)
    | EmptyString => tail
    end.

Definition toString_pos (m : positive) (e : Z) : string :=
  let '(num, den) := ratio_of m e in
  let n0 := magnitude num den in
  let '(c0, q0) := shortest 16 (S754_finite false m e) num den n0 1 in
  let '(c, q) := strip_zeros 400 c0 q0 in
  let ds := JSString.of_nonneg c in
  layout ds (Z.of_nat (String.length ds) + q).

Definition toString (x : Number) : string :=
  match x with
  | S754_nan => "NaN"
  | S754_zero _ => "0"
  | S754_infinity s => if s then "-Infinity" else "Infinity"
  | S754_finite s m e =>
      (if s then "-" else "") ++ toString_pos m e
  end.

(** *** [Number.prototype.toFixed]

    [fractionDigits] is a literal of the program, within the 0..100 the
    standard accepts.  A finite [x] below 10^21 in magnitude is printed
    from the integer [n] with [n / 10^f] nearest to [|x|], the larger one
    on a tie. *)

Definition fixed_digits (f : nat) (n : Z) : string :=
  let m := JSString.of_nonneg n in
  match f with
  | O => m
  | S _ =>
      let k := String.length m in
      let m' := if Nat.leb k f then JSString.zeros (f + 1 - k) ++ m else m in
      let k' := if Nat.leb k f then (f + 1)%nat else k in
      JSString.take (k' - f) m' ++ "." ++ JSString.drop (k' - f) m'
  end.

Definition nearest_fixed (f : nat) (num den : Z) : Z :=
  (2 * num * 10 ^ Z.of_nat f + den) / (2 * den).

Definition toFixed (fractionDigits : nat) (x : Number) : string :=
  match x with
  | S754_finite s m e =>
      let '(num, den) := ratio_of m e in
      (if s then "-" else "") ++
      (if 10 ^ 21 * den <=? num then toString_pos m e
       else fixed_digits fractionDigits (nearest_fixed fractionDigits num den))
  | S754_zero _ => fixed_digits fractionDigits 0
  | _ => toString x
  end.

End JSNumber.

(** ** Dates

    Time values are milliseconds since the epoch; the model works in local
    time throughout (the program only builds a local date and reads local
    fields back), so the zone offset is left out. *)

Module JSDate.

Definition msPerDay : Z := 86400000.

Definition Day (t : Z) : Z := t / msPerDay.

Definition DaysInYear (y : Z) : Z :=
  if negb (y mod 4 =? 0) then 365
  else if negb (y mod 100 =? 0) then 366
  else if negb (y mod 400 =? 0) then 365
  else 366.

Definition DayFromYear (y : Z) : Z :=
  365 * (y - 1970) + (y - 1969) / 4 - (y - 1901) / 100 + (y - 1601) / 400.

Definition TimeFromYear (y : Z) : Z := msPerDay * DayFromYear y.

(** The largest [y] with [TimeFromYear y <= t]: an estimate from the mean
    year length, corrected by at most one year. *)
Definition YearFromDay (d : Z) : Z :=
  let y0 := 1970 + (d * 400) / 146097 in
  if d <? DayFromYear y0 then y0 - 1
  else if DayFromYear (y0 + 1) <=? d then y0 + 1
  else y0.

Definition YearFromTime (t : Z) : Z := YearFromDay (Day t).

Definition leap (y : Z) : Z := if DaysInYear y =? 366 then 1 else 0.

Definition InLeapYear (t : Z) : Z := leap (YearFromTime t).

Definition DayWithinYear (t : Z) : Z := Day t - DayFromYear (YearFromTime t).

Definition MonthFromTime (t : Z) : Z :=
  let d := DayWithinYear t in
  let l := InLeapYear t in
  if d <? 31 then 0
  else if d <? 59 + l then 1
  else if d <? 90 + l then 2
  else if d <? 120 + l then 3
  else if d <? 151 + l then 4
  else if d <? 181 + l then 5
  else if d <? 212 + l then 6
  else if d <? 243 + l then 7
  else if d <? 273 + l then 8
  else if d <? 304 + l then 9
  else if d <? 334 + l then 10
  else 11.

(** Day within the year [y] on which month [mn] (0..11) starts. *)
Definition month_start (y mn : Z) : Z :=
  let l := leap y in
  match mn with
  | 0 => 0
  | 1 => 31
  | 2 => 59 + l
  | 3 => 90 + l
  | 4 => 120 + l
  | 5 => 151 + l
  | 6 => 181 + l
  | 7 => 212 + l
  | 8 => 243 + l
  | 9 => 273 + l
  | 10 => 304 + l
  | _ => 334 + l
  end.

(** [MakeDay]: months outside 0..11 carry into the year. *)
Definition MakeDay (year month date : Z) : Z :=
  let ym := year + month / 12 in
  let mn := month mod 12 in
  DayFromYear ym + month_start ym mn + date - 1.

Definition MakeDate (day time : Z) : Z := day * msPerDay + time.

(** A [Date] object: its time value, or [None] for an invalid date. *)
Definition Date : Type := option Z.

Definition TimeClip (t : Z) : Date :=
  if 8640000000000000 <? Z.abs t then None else Some t.

(** [new Date()] when the clock reads [t]. *)
Definition current (t : Z) : Date := Some t.

(** Integer-valued numbers, [None] standing for [NaN]. *)
Definition getFullYear (d : Date) : option Z := option_map YearFromTime d.
Definition getMonth (d : Date) : option Z := option_map MonthFromTime d.

(** [new Date(year, month, date)]: a year from 0 to 99 means 1900 + year. *)
Definition of_fields (year month : option Z) (date : Z) : Date :=
  match year, month with
  | Some y, Some m =>
      let yr := if (0 <=? y) && (y <=? 99) then 1900 + y else y in
      TimeClip (MakeDate (MakeDay yr m date) 0)
  | _, _ => None
  end.

Definition plus (x : option Z) (k : Z) : option Z := option_map (fun v => v + k) x.

(** String conversion of an integer-or-NaN number. *)
Definition show (x : option Z) : string :=
  match x with
  | Some v => JSString.of_Z v
  | None => "NaN"
  end.

End JSDate.

(** ** Completions: a value, or a thrown error *)

Inductive JSError : Type :=
| TypeError (message : string).

Inductive completion (A : Type) : Type :=
| Normal (value : A)
| Throw (error : JSError).

Arguments Normal {A} value.
Arguments Throw {A} error.

Definition bind {A B : Type} (c : completion A) (k : A -> completion B) : completion B :=
  match c with
  | Normal a => k a
  | Throw e => Throw e
  end.

Notation "x <- c ;; k" := (bind c (fun x => k))
  (at level 61, c at next level, right associativity).

(** [array.map(f)] for a callback that may throw: elements are visited in
    order and the first error ends the call. *)
Fixpoint Array_map {A B : Type} (f : A -> completion B) (l : list A) : completion (list B) :=
  match l with
  | [] => Normal []
  | a :: rest =>
      b <- f a ;;
      bs <- Array_map f rest ;;
      Normal (b :: bs)
  end.

(** [array.filter((row) => row !== null)] *)
Fixpoint filter_non_null {A : Type} (l : list (option A)) : list A :=
  match l with
  | [] => []
  | Some a :: rest => a :: filter_non_null rest
  | None :: rest => filter_non_null rest
  end.

(** ** The data model of [types.ts] *)

(** Modelled from the spec: [types.ts] is not among the source files; the
    record shapes follow section 3 of the specification and the field
    accesses of the two pipelines.  Every field the code reads through [?.],
    [??] or a truthiness test is optional. *)
Module MonthUtilisation.
Record t : Type := { month : option string; utilisationRate : option string }.
End MonthUtilisation.

Module WorkforceUtilisation.
Record t : Type := {
  utilisationRateLastTwelveMonths : option string;
  utilisationRateYearToDate : option string;
  lastThreeMonthsIndividually : option (list MonthUtilisation.t)
}.
End WorkforceUtilisation.

Module MonthEarnings.
Record t : Type := { month : option string; costs : option string }.
End MonthEarnings.

Module CostsByMonth.
Record t : Type := { potentialEarningsByMonth : option (list MonthEarnings.t) }.
End CostsByMonth.

Module StatusAggregation.
Record t : Type := { status : option string }.
End StatusAggregation.

Module Employee.
Record t : Type := {
  firstname : option string;
  lastname : option string;
  statusAggregation : option StatusAggregation.t;
  workforceUtilisation : option WorkforceUtilisation.t;
  costsByMonth : option CostsByMonth.t
}.
End Employee.

Module External.
Record t : Type := {
  firstname : option string;
  lastname : option string;
  status : option string;
  workforceUtilisation : option WorkforceUtilisation.t
}.
End External.

Record SourceDataType : Type := {
  employees : option Employee.t;
  externals : option External.t
}.

Record TableDataType : Type := {
  person : string;
  past12Months : string;
  y2d : string;
  may : string;
  june : string;
  july : string;
  netEarningsPrevMonth : string
}.

(** The value of [dataRow.employees ?? dataRow.externals] and of the
    conditional [isEmployee ? dataRow.employees! : dataRow.externals!]. *)
Inductive Person : Type :=
| AnEmployee (e : Employee.t)
| AnExternal (x : External.t).

Definition firstname (p : Person) : option string :=
  match p with
  | AnEmployee e => Employee.firstname e
  | AnExternal x => External.firstname x
  end.

Definition lastname (p : Person) : option string :=
  match p with
  | AnEmployee e => Employee.lastname e
  | AnExternal x => External.lastname x
  end.

Definition workforceUtilisation (p : Person) : option WorkforceUtilisation.t :=
  match p with
  | AnEmployee e => Employee.workforceUtilisation e
  | AnExternal x => External.workforceUtilisation x
  end.

(** [a ?? b] on the two variants. *)
Definition employees_or_externals (dataRow : SourceDataType) : option Person :=
  match employees dataRow with
  | Some e => Some (AnEmployee e)
  | None => option_map AnExternal (externals dataRow)
  end.

(** [o?.f] for an optional field [f] of a possibly absent object [o]. *)
Definition opt_chain {A B : Type} (o : option A) (f : A -> option B) : option B :=
  match o with
  | Some a => f a
  | None => None
  end.

Notation "o ?. f" := (opt_chain o f) (at level 20, left associativity).

(** [!!o] for a possibly absent object. *)
Definition present {A : Type} (o : option A) : bool :=
  match o with
  | Some _ => true
  | None => false
  end.

(** ** Helpers shared, word for word, by both source files *)

Definition getPrevMonthKey (clock : Z) : string :=
  let now := JSDate.current clock in
  let prev :=
    JSDate.of_fields (JSDate.getFullYear now)
      (JSDate.plus (JSDate.getMonth now) (-1)) 1 in
  JSDate.show (JSDate.getFullYear prev) ++ "-" ++
  JSString.padStart 2 "0" (JSDate.show (JSDate.plus (JSDate.getMonth prev) 1)).

Definition getNetEarningsPrevMonth (clock : Z) (dataRow : SourceDataType) : string :=
  let prevMonthKey := getPrevMonthKey clock in
  let earningsArr :=
    match employees dataRow ?. Employee.costsByMonth
            ?. CostsByMonth.potentialEarningsByMonth with
    | Some arr => arr
    | None => []
    end in
  let match_ :=
    find (fun e => JSString.strict_eq (MonthEarnings.month e) prevMonthKey) earningsArr in
  let raw :=
    JSNumber.parseFloat
      match match_ ?. MonthEarnings.costs with
      | Some c => c
      | None => "0"
      end in
  JSNumber.toString raw ++ " €".

(** [value ? `${(parseFloat(value) * 100).toFixed(1)}%` : "0%"] *)
Definition parseRate (value : option string) : string :=
  match value with
  | Some (String _ _ as v) =>
      JSNumber.toFixed 1 (JSNumber.mul (JSNumber.parseFloat v) (JSNumber.of_Z 100)) ++ "%"
  | _ => "0%"
  end.

(** ** [src/table-script.tsx]: filtering inside the map callback *)

Module TableScript.

Definition project (clock : Z) (dataRow : SourceDataType)
  : completion (option TableDataType) :=
  let isEmployee := present (employees dataRow) in
  let isExternal := present (externals dataRow) in
  let build : completion (option TableDataType) :=
    let person :=
      if isEmployee then option_map AnEmployee (employees dataRow)
      else option_map AnExternal (externals dataRow) in
    util <- match person with
            | Some p => Normal (workforceUtilisation p)
            | None =>
                Throw (TypeError
                         "Cannot read properties of undefined (reading 'workforceUtilisation')")
            end ;;
    let lastThreeMonths :=
      match util ?. WorkforceUtilisation.lastThreeMonthsIndividually with
      | Some arr => arr
      | None => []
      end in
    let monthRate (name : string) :=
      parseRate
        (find (fun m => JSString.strict_eq (MonthUtilisation.month m) name) lastThreeMonths
           ?. MonthUtilisation.utilisationRate) in
    Normal (Some {|
      person := JSString.of_optional (person ?. firstname) ++ " " ++
                JSString.of_optional (person ?. lastname);
      past12Months := parseRate (util ?. WorkforceUtilisation.utilisationRateLastTwelveMonths);
      y2d := parseRate (util ?. WorkforceUtilisation.utilisationRateYearToDate);
      may := monthRate "May";
      june := monthRate "June";
      july := monthRate "July";
      netEarningsPrevMonth := getNetEarningsPrevMonth clock dataRow
    |}) in
  if isEmployee then
    if JSString.strict_eq
         (employees dataRow ?. Employee.statusAggregation ?. StatusAggregation.status)
         "Inaktiv"
    then Normal None
    else build
  else if isExternal then
    if negb (JSString.strict_eq (externals dataRow ?. External.status) "active")
    then Normal None
    else build
  else Normal None.

Definition tableData (clock : Z) (sourceData : list SourceDataType)
  : completion (list TableDataType) :=
  rows <- Array_map (project clock) sourceData ;;
  Normal (filter_non_null rows).

End TableScript.

(** ** The refactored source file: predicate helpers, filter before map *)

Module Refactored.

Definition isInactiveEmployee (dataRow : SourceDataType) : bool :=
  present (employees dataRow) &&
  match employees dataRow with
  | Some e =>
      JSString.strict_eq
        (Employee.statusAggregation e ?. StatusAggregation.status) "Inaktiv"
  | None => false
  end.

Definition isInactiveExternal (dataRow : SourceDataType) : bool :=
  present (externals dataRow) &&
  match externals dataRow with
  | Some x => negb (JSString.strict_eq (External.status x) "active")
  | None => false
  end.

Definition hasValidName (person : option Person) : bool :=
  JSString.truthy (person ?. firstname) && JSString.truthy (person ?. lastname).

Definition isValidRow (dataRow : SourceDataType) : bool :=
  let person := employees_or_externals dataRow in
  negb (isInactiveEmployee dataRow) &&
  negb (isInactiveExternal dataRow) &&
  hasValidName person.

Definition extractPerson (dataRow : SourceDataType) : option Person :=
  employees_or_externals dataRow.

Definition project (clock : Z) (dataRow : SourceDataType) : option TableDataType :=
  let person := extractPerson dataRow in
  let util := person ?. workforceUtilisation in
  let getMonthRate (month : string) :=
    parseRate
      (util ?. WorkforceUtilisation.lastThreeMonthsIndividually
         ?. find (fun m => JSString.strict_eq (MonthUtilisation.month m) month)
         ?. MonthUtilisation.utilisationRate) in
  match person with
  | None => None
  | Some p =>
      Some {|
        person := JSString.of_optional (firstname p) ++ " " ++
                  JSString.of_optional (lastname p);
        past12Months := parseRate (util ?. WorkforceUtilisation.utilisationRateLastTwelveMonths);
        y2d := parseRate (util ?. WorkforceUtilisation.utilisationRateYearToDate);
        may := getMonthRate "May";
        june := getMonthRate "June";
        july := getMonthRate "July";
        netEarningsPrevMonth := getNetEarningsPrevMonth clock dataRow
      |}
  end.

Definition tableData (clock : Z) (sourceData : list SourceDataType)
  : list TableDataType :=
  filter_non_null (map (project clock) (filter isValidRow sourceData)).

End Refactored.

(** * Definitions used to state the properties *)

(** The "MM" and "YYYY" fields of a month key, digit by digit. *)
Definition two_digits (n : Z) : string :=
  String (JSString.digit_char (n / 10)) (String (JSString.digit_char (n mod 10)) "").

Definition four_digits (n : Z) : string :=
  String (JSString.digit_char (n / 1000))
    (String (JSString.digit_char (n / 100 mod 10))
       (String (JSString.digit_char (n / 10 mod 10))
          (String (JSString.digit_char (n mod 10)) ""))).

(** A name field that is present and not the empty string. *)
Definition nonempty (v : option string) : bool :=
  match v with
  | Some s => negb (String.eqb s "")
  | None => false
  end.

(** The activity-and-name predicate as the specification words it: a
    variant is present, an employee variant is not "Inaktiv", an external
    variant is "active", and the resolved person ([employees], else
    [externals]) has a non-empty first and last name. *)
Definition active_and_named (dataRow : SourceDataType) : bool :=
  (present (employees dataRow) || present (externals dataRow)) &&
  match employees dataRow with
  | Some e =>
      negb (JSString.strict_eq
              (Employee.statusAggregation e ?. StatusAggregation.status) "Inaktiv")
  | None => true
  end &&
  match externals dataRow with
  | Some x => JSString.strict_eq (External.status x) "active"
  | None => true
  end &&
  match employees_or_externals dataRow with
  | Some p => nonempty (firstname p) && nonempty (lastname p)
  | None => false
  end.

(** The test the inline pipeline applies before it builds a row: the
    [employees] variant decides when present, [externals] otherwise. *)
Definition active (dataRow : SourceDataType) : bool :=
  match employees dataRow with
  | Some e =>
      negb (JSString.strict_eq
              (Employee.statusAggregation e ?. StatusAggregation.status) "Inaktiv")
  | None =>
      match externals dataRow with
      | Some x => JSString.strict_eq (External.status x) "active"
      | None => false
      end
  end.

(** Order-preserving subsequences. *)
Inductive subsequence {A : Type} : list A -> list A -> Prop :=
| subsequence_nil : subsequence [] []
| subsequence_skip (a : A) (s l : list A) : subsequence s l -> subsequence s (a :: l)
| subsequence_keep (a : A) (s l : list A) : subsequence s l -> subsequence (a :: s) (a :: l).

(** The utilisation data of the resolved person, and the rate string of
    the entry for the month called [name], if any. *)
Definition utilisation_of (dataRow : SourceDataType) : option WorkforceUtilisation.t :=
  employees_or_externals dataRow ?. workforceUtilisation.

Definition month_rate (name : string) (dataRow : SourceDataType) : option string :=
  utilisation_of dataRow
    ?. WorkforceUtilisation.lastThreeMonthsIndividually
    ?. find (fun m => JSString.strict_eq (MonthUtilisation.month m) name)
    ?. MonthUtilisation.utilisationRate.

(** The row of a record whose resolved person is [p], field by field as
    section 4.1 of the specification lists them. *)
Definition row_for (clock : Z) (dataRow : SourceDataType) (p : Person) : TableDataType := {|
  person := JSString.of_optional (firstname p) ++ " " ++ JSString.of_optional (lastname p);
  past12Months :=
    parseRate (utilisation_of dataRow ?. WorkforceUtilisation.utilisationRateLastTwelveMonths);
  y2d := parseRate (utilisation_of dataRow ?. WorkforceUtilisation.utilisationRateYearToDate);
  may := parseRate (month_rate "May" dataRow);
  june := parseRate (month_rate "June" dataRow);
  july := parseRate (month_rate "July" dataRow);
  netEarningsPrevMonth := getNetEarningsPrevMonth clock dataRow
|}.

(** Records as the data model describes them: at most one variant, and
    every active person named. *)
Definition well_formed (r : SourceDataType) : Prop :=
  (employees r = None \/ externals r = None) /\
  (active r = true -> Refactored.hasValidName (employees_or_externals r) = true).

(** The employee's [potentialEarningsByMonth], empty when any link of the
    chain is missing (always so for a record without [employees]). *)
Definition earnings (dataRow : SourceDataType) : list MonthEarnings.t :=
  match employees dataRow ?. Employee.costsByMonth
          ?. CostsByMonth.potentialEarningsByMonth with
  | Some arr => arr
  | None => []
  end.

(** [entry] is the first element of [arr] whose month is [key]. *)
Definition first_match (key : string) (arr : list MonthEarnings.t)
  (entry : MonthEarnings.t) : Prop :=
  exists before after,
    arr = (before ++ entry :: after)%list /\
    Forall (fun e => MonthEarnings.month e <> Some key) before /\
    MonthEarnings.month entry = Some key.

Definition no_match (key : string) (arr : list MonthEarnings.t) : Prop :=
  Forall (fun e => MonthEarnings.month e <> Some key) arr.

(** 15 July 2025 and 10 January 2026, local midnight. *)
Definition mid_july_2025 : Z := 1752537600000.
Definition january_2026 : Z := 1768003200000.

Definition jane : SourceDataType := {|
  employees := Some {|
    Employee.firstname := Some "Jane";
    Employee.lastname := Some "Doe";
    Employee.statusAggregation := Some {| StatusAggregation.status := Some "Aktiv" |};
    Employee.workforceUtilisation := Some {|
      WorkforceUtilisation.utilisationRateLastTwelveMonths := Some "0.89";
      WorkforceUtilisation.utilisationRateYearToDate := Some "0.75";
      WorkforceUtilisation.lastThreeMonthsIndividually :=
        Some [ {| MonthUtilisation.month := Some "June";
                  MonthUtilisation.utilisationRate := Some "0.72" |} ]
    |};
    Employee.costsByMonth := Some {|
      CostsByMonth.potentialEarningsByMonth :=
        Some [ {| MonthEarnings.month := Some "2025-05"; MonthEarnings.costs := Some "3100" |};
               {| MonthEarnings.month := Some "2025-06"; MonthEarnings.costs := Some "3500" |} ]
    |}
  |};
  externals := None
|}.

(** An active employee whose first name is the empty string. *)
Definition nameless_employee : SourceDataType := {|
  employees := Some {|
    Employee.firstname := Some "";
    Employee.lastname := Some "Doe";
    Employee.statusAggregation := Some {| StatusAggregation.status := Some "Aktiv" |};
    Employee.workforceUtilisation := None;
    Employee.costsByMonth := None
  |};
  externals := None
|}.

(** An active external without a [firstname] field. *)
Definition smith : External.t := {|
  External.firstname := None;
  External.lastname := Some "Smith";
  External.status := Some "active";
  External.workforceUtilisation := None
|}.

Definition unnamed_external : SourceDataType := {| employees := None; externals := Some smith |}.

(** An employee whose year-to-date rate and last month's costs are not
    numbers. *)
Definition max_muster : Employee.t := {|
  Employee.firstname := Some "Max";
  Employee.lastname := Some "Muster";
  Employee.statusAggregation := None;
  Employee.workforceUtilisation := Some {|
    WorkforceUtilisation.utilisationRateLastTwelveMonths := None;
    WorkforceUtilisation.utilisationRateYearToDate := Some "n/a";
    WorkforceUtilisation.lastThreeMonthsIndividually := None
  |};
  Employee.costsByMonth := Some {|
    CostsByMonth.potentialEarningsByMonth :=
      Some [ {| MonthEarnings.month := Some "2025-06"; MonthEarnings.costs := Some "n/a" |} ]
  |}
|}.

Definition garbled : SourceDataType := {| employees := Some max_muster; externals := None |}.

(** A record with both variants: a named, active employee and an external
    whose status is "pending". *)
Definition both_variants : SourceDataType := {|
  employees := Some {|
    Employee.firstname := Some "Eva";
    Employee.lastname := Some "Beispiel";
    Employee.statusAggregation := Some {| StatusAggregation.status := Some "Aktiv" |};
    Employee.workforceUtilisation := None;
    Employee.costsByMonth := None
  |};
  externals := Some {|
    External.firstname := Some "Eva";
    External.lastname := Some "Beispiel";
    External.status := Some "pending";
    External.workforceUtilisation := None
  |}
|}.

(** Reads a string of the shape [-]D..D.D (at least one digit before the
    point, exactly one after it, nothing else) as a sign and a number of
    tenths. *)
Definition read_tenths (neg : bool) (body : string) : option (bool * Z) :=
  match JSNumber.read_digits 0 0 body with
  | (whole, S _, String "." (String d "")) =>
      match JSNumber.digit_value d with
      | Some tenth => Some (neg, 10 * whole + tenth)
      | None => None
      end
  | _ => None
  end.

Definition read_one_decimal (s : string) : option (bool * Z) :=
  match s with
  | String "-" r => read_tenths true r
  | _ => read_tenths false s
  end.

(** How a rate field relates to its input: a missing or empty input shows
    as the default "0%", a present input that does not parse as a number
    shows as "NaN%". *)
Definition rate_shown (input : option string) (output : string) : Prop :=
  (input = None -> output = "0%") /\
  (input = Some "" -> output = "0%") /\
  (forall v, input = Some v -> v <> "" ->
             JSNumber.parseFloat v = JSNumber.NaN -> output = "NaN%").

(** ** The column schema of the [Example] component

    Both source files declare the same seven columns inside [useMemo]; the
    table widget reads the cell of a row under a column as the row's
    property named by [accessorKey]. *)
Record ColumnDef : Type := { accessorKey : string; header : string }.

Definition columns : list ColumnDef := [
  {| accessorKey := "person"; header := "Person" |};
  {| accessorKey := "past12Months"; header := "Past 12 Months" |};
  {| accessorKey := "y2d"; header := "Y2D" |};
  {| accessorKey := "may"; header := "May" |};
  {| accessorKey := "june"; header := "June" |};
  {| accessorKey := "july"; header := "July" |};
  {| accessorKey := "netEarningsPrevMonth"; header := "Net Earnings Prev Month" |}
].

(** [row[key]]: property access on a row object; an unknown name gives
    [undefined]. *)
Definition get_field (row : TableDataType) (key : string) : option string :=
  if String.eqb key "person" then Some (person row)
  else if String.eqb key "past12Months" then Some (past12Months row)
  else if String.eqb key "y2d" then Some (y2d row)
  else if String.eqb key "may" then Some (may row)
  else if String.eqb key "june" then Some (june row)
  else if String.eqb key "july" then Some (july row)
  else if String.eqb key "netEarningsPrevMonth" then Some (netEarningsPrevMonth row)
  else None.

(** The six cells of a row that show names and rates. *)
Definition rate_cells (row : TableDataType) : list string :=
  [person row; past12Months row; y2d row; may row; june row; july row].

(** [entry] is the first element of [arr] whose month is called [name]. *)
Definition first_named (name : string) (arr : list MonthUtilisation.t)
  (entry : MonthUtilisation.t) : Prop :=
  exists before after,
    arr = (before ++ entry :: after)%list /\
    Forall (fun m => MonthUtilisation.month m <> Some name) before /\
    MonthUtilisation.month entry = Some name.

(** The [lastThreeMonthsIndividually] of the resolved person, empty when a
    link of the chain is missing. *)
Definition last_three_months (dataRow : SourceDataType) : list MonthUtilisation.t :=
  match utilisation_of dataRow ?. WorkforceUtilisation.lastThreeMonthsIndividually with
  | Some arr => arr
  | None => []
  end.

(** A month cell shows the first entry named [name]: [parseRate] of its
    rate, or "0%" when [dataRow] lists no entry of that name. *)
Definition month_cell_shows (name : string) (dataRow : SourceDataType) (cell : string) : Prop :=
  (forall entry,
     first_named name (last_three_months dataRow) entry ->
     cell = parseRate (MonthUtilisation.utilisationRate entry)) /\
  (Forall (fun m => MonthUtilisation.month m <> Some name) (last_three_months dataRow) ->
   cell = "0%").

(** ASCII letters. *)
Definition is_letter (c : ascii) : bool :=
  let n := JSNumber.code c in
  ((Nat.leb 65 n && Nat.leb n 90) || (Nat.leb 97 n && Nat.leb n 122))%bool.

(** An external with workforce data, and a two-record input. *)
Definition erika : External.t := {|
  External.firstname := Some "Erika";
  External.lastname := Some "Extern";
  External.status := Some "active";
  External.workforceUtilisation := Some {|
    WorkforceUtilisation.utilisationRateLastTwelveMonths := Some "0.5";
    WorkforceUtilisation.utilisationRateYearToDate := None;
    WorkforceUtilisation.lastThreeMonthsIndividually :=
      Some [ {| MonthUtilisation.month := Some "June";
                MonthUtilisation.utilisationRate := Some "0.4" |};
             {| MonthUtilisation.month := Some "May";
                MonthUtilisation.utilisationRate := Some "0.61" |};
             {| MonthUtilisation.month := Some "May";
                MonthUtilisation.utilisationRate := Some "0.99" |} ]
  |}
|}.

Definition erika_record : SourceDataType := {| employees := None; externals := Some erika |}.

Definition staff : list SourceDataType := [jane; erika_record].

(** ** The pipelines on unchecked data

    The source casts the imported JSON to [SourceDataType[]] without a
    check, so at run time a record, or an element of
    [lastThreeMonthsIndividually] or [potentialEarningsByMonth], may be
    [null].  This second embedding keeps those cases: a record list of
    possibly-null records whose two arrays hold possibly-null elements.
    Reading a property of [null] throws a [TypeError]; [find] calls its
    callback on the elements in order and stops at the first match. *)

(** [array.find(f)] for a callback that may throw. *)
Fixpoint Array_find {A : Type} (f : A -> completion bool) (l : list A)
  : completion (option A) :=
  match l with
  | [] => Normal None
  | a :: rest =>
      b <- f a ;;
      if b then Normal (Some a) else Array_find f rest
  end.

(** [array.filter(f)] for a callback that may throw. *)
Fixpoint Array_filter {A : Type} (f : A -> completion bool) (l : list A)
  : completion (list A) :=
  match l with
  | [] => Normal []
  | a :: rest =>
      b <- f a ;;
      kept <- Array_filter f rest ;;
      Normal (if b then a :: kept else kept)
  end.

Module Raw.

Module WorkforceUtilisation.
Record t : Type := {
  utilisationRateLastTwelveMonths : option string;
  utilisationRateYearToDate : option string;
  lastThreeMonthsIndividually : option (list (option MonthUtilisation.t))
}.
End WorkforceUtilisation.

Module CostsByMonth.
Record t : Type := { potentialEarningsByMonth : option (list (option MonthEarnings.t)) }.
End CostsByMonth.

Module Employee.
Record t : Type := {
  firstname : option string;
  lastname : option string;
  statusAggregation : option StatusAggregation.t;
  workforceUtilisation : option WorkforceUtilisation.t;
  costsByMonth : option CostsByMonth.t
}.
End Employee.

Module External.
Record t : Type := {
  firstname : option string;
  lastname : option string;
  status : option string;
  workforceUtilisation : option WorkforceUtilisation.t
}.
End External.

Record SourceDataType : Type := {
  employees : option Employee.t;
  externals : option External.t
}.

Inductive Person : Type :=
| AnEmployee (e : Employee.t)
| AnExternal (x : External.t).

Definition firstname (p : Person) : option string :=
  match p with
  | AnEmployee e => Employee.firstname e
  | AnExternal x => External.firstname x
  end.

Definition lastname (p : Person) : option string :=
  match p with
  | AnEmployee e => Employee.lastname e
  | AnExternal x => External.lastname x
  end.

Definition workforceUtilisation (p : Person) : option WorkforceUtilisation.t :=
  match p with
  | AnEmployee e => Employee.workforceUtilisation e
  | AnExternal x => External.workforceUtilisation x
  end.

Definition employees_or_externals (dataRow : SourceDataType) : option Person :=
  match employees dataRow with
  | Some e => Some (AnEmployee e)
  | None => option_map AnExternal (externals dataRow)
  end.

(** [(m) => m.month === name] and [(e) => e.month === key]: reading
    [month] of a [null] element throws. *)
Definition month_is (name : string) (m : option MonthUtilisation.t) : completion bool :=
  match m with
  | Some entry => Normal (JSString.strict_eq (MonthUtilisation.month entry) name)
  | None => Throw (TypeError "Cannot read properties of null (reading 'month')")
  end.

Definition earnings_month_is (key : string) (e : option MonthEarnings.t) : completion bool :=
  match e with
  | Some entry => Normal (JSString.strict_eq (MonthEarnings.month entry) key)
  | None => Throw (TypeError "Cannot read properties of null (reading 'month')")
  end.

Definition getNetEarningsPrevMonth (clock : Z) (dataRow : SourceDataType)
  : completion string :=
  let prevMonthKey := getPrevMonthKey clock in
  let earningsArr :=
    match employees dataRow ?. Employee.costsByMonth
            ?. CostsByMonth.potentialEarningsByMonth with
    | Some arr => arr
    | None => []
    end in
  match_ <- Array_find (earnings_month_is prevMonthKey) earningsArr ;;
  let raw :=
    JSNumber.parseFloat
      match match_ ?. (fun e => e ?. MonthEarnings.costs) with
      | Some c => c
      | None => "0"
      end in
  Normal (JSNumber.toString raw ++ " €").

(** The map callback of table-script.tsx. *)
Definition project_inline (clock : Z) (dataRow : option SourceDataType)
  : completion (option TableDataType) :=
  match dataRow with
  | None => Throw (TypeError "Cannot read properties of null (reading 'employees')")
  | Some dataRow =>
      let isEmployee := present (employees dataRow) in
      let isExternal := present (externals dataRow) in
      let build : completion (option TableDataType) :=
        let person :=
          if isEmployee then option_map AnEmployee (employees dataRow)
          else option_map AnExternal (externals dataRow) in
        util <- match person with
                | Some p => Normal (workforceUtilisation p)
                | None =>
                    Throw (TypeError
                             "Cannot read properties of undefined (reading 'workforceUtilisation')")
                end ;;
        let lastThreeMonths :=
          match util ?. WorkforceUtilisation.lastThreeMonthsIndividually with
          | Some arr => arr
          | None => []
          end in
        let monthRate (name : string) : completion string :=
          found <- Array_find (month_is name) lastThreeMonths ;;
          Normal (parseRate (found ?. (fun m => m ?. MonthUtilisation.utilisationRate))) in
        let person_ :=
          JSString.of_optional (person ?. firstname) ++ " " ++
          JSString.of_optional (person ?. lastname) in
        let past12Months_ :=
          parseRate (util ?. WorkforceUtilisation.utilisationRateLastTwelveMonths) in
        let y2d_ := parseRate (util ?. WorkforceUtilisation.utilisationRateYearToDate) in
        may_ <- monthRate "May" ;;
        june_ <- monthRate "June" ;;
        july_ <- monthRate "July" ;;
        net <- getNetEarningsPrevMonth clock dataRow ;;
        Normal (Some {|
          person := person_;
          past12Months := past12Months_;
          y2d := y2d_;
          may := may_;
          june := june_;
          july := july_;
          netEarningsPrevMonth := net
        |}) in
      if isEmployee then
        if JSString.strict_eq
             (employees dataRow ?. Employee.statusAggregation ?. StatusAggregation.status)
             "Inaktiv"
        then Normal None
        else build
      else if isExternal then
        if negb (JSString.strict_eq (externals dataRow ?. External.status) "active")
        then Normal None
        else build
      else Normal None
  end.

Definition tableData_inline (clock : Z) (sourceData : list (option SourceDataType))
  : completion (list TableDataType) :=
  rows <- Array_map (project_inline clock) sourceData ;;
  Normal (filter_non_null rows).

(** The helpers and the map callback of the refactored file. *)
Definition isInactiveEmployee (dataRow : SourceDataType) : bool :=
  present (employees dataRow) &&
  match employees dataRow with
  | Some e =>
      JSString.strict_eq
        (Employee.statusAggregation e ?. StatusAggregation.status) "Inaktiv"
  | None => false
  end.

Definition isInactiveExternal (dataRow : SourceDataType) : bool :=
  present (externals dataRow) &&
  match externals dataRow with
  | Some x => negb (JSString.strict_eq (External.status x) "active")
  | None => false
  end.

Definition hasValidName (person : option Person) : bool :=
  JSString.truthy (person ?. firstname) && JSString.truthy (person ?. lastname).

Definition isValidRow (dataRow : option SourceDataType) : completion bool :=
  match dataRow with
  | None => Throw (TypeError "Cannot read properties of null (reading 'employees')")
  | Some dataRow =>
      let person := employees_or_externals dataRow in
      Normal (negb (isInactiveEmployee dataRow) &&
              negb (isInactiveExternal dataRow) &&
              hasValidName person)
  end.

Definition project_refactored (clock : Z) (dataRow : option SourceDataType)
  : completion (option TableDataType) :=
  match dataRow with
  | None => Throw (TypeError "Cannot read properties of null (reading 'employees')")
  | Some dataRow =>
      let person := employees_or_externals dataRow in
      let util := person ?. workforceUtilisation in
      let getMonthRate (month : string) : completion string :=
        found <- match util ?. WorkforceUtilisation.lastThreeMonthsIndividually with
                 | Some arr => Array_find (month_is month) arr
                 | None => Normal None
                 end ;;
        Normal (parseRate (found ?. (fun m => m ?. MonthUtilisation.utilisationRate))) in
      match person with
      | None => Normal None
      | Some p =>
          let person_ :=
            JSString.of_optional (firstname p) ++ " " ++ JSString.of_optional (lastname p) in
          let past12Months_ :=
            parseRate (util ?. WorkforceUtilisation.utilisationRateLastTwelveMonths) in
          let y2d_ := parseRate (util ?. WorkforceUtilisation.utilisationRateYearToDate) in
          may_ <- getMonthRate "May" ;;
          june_ <- getMonthRate "June" ;;
          july_ <- getMonthRate "July" ;;
          net <- getNetEarningsPrevMonth clock dataRow ;;
          Normal (Some {|
            person := person_;
            past12Months := past12Months_;
            y2d := y2d_;
            may := may_;
            june := june_;
            july := july_;
            netEarningsPrevMonth := net
          |})
      end
  end.

Definition tableData_refactored (clock : Z) (sourceData : list (option SourceDataType))
  : completion (list TableDataType) :=
  valid <- Array_filter isValidRow sourceData ;;
  rows <- Array_map (project_refactored clock) valid ;;
  Normal (filter_non_null rows).

End Raw.

(** A record of the data model seen as unchecked data: no [null]
    anywhere. *)
Definition raw_utilisation (u : WorkforceUtilisation.t) : Raw.WorkforceUtilisation.t := {|
  Raw.WorkforceUtilisation.utilisationRateLastTwelveMonths :=
    WorkforceUtilisation.utilisationRateLastTwelveMonths u;
  Raw.WorkforceUtilisation.utilisationRateYearToDate :=
    WorkforceUtilisation.utilisationRateYearToDate u;
  Raw.WorkforceUtilisation.lastThreeMonthsIndividually :=
    option_map (map Some) (WorkforceUtilisation.lastThreeMonthsIndividually u)
|}.

Definition raw_costs (c : CostsByMonth.t) : Raw.CostsByMonth.t := {|
  Raw.CostsByMonth.potentialEarningsByMonth :=
    option_map (map Some) (CostsByMonth.potentialEarningsByMonth c)
|}.

Definition raw_employee (e : Employee.t) : Raw.Employee.t := {|
  Raw.Employee.firstname := Employee.firstname e;
  Raw.Employee.lastname := Employee.lastname e;
  Raw.Employee.statusAggregation := Employee.statusAggregation e;
  Raw.Employee.workforceUtilisation :=
    option_map raw_utilisation (Employee.workforceUtilisation e);
  Raw.Employee.costsByMonth := option_map raw_costs (Employee.costsByMonth e)
|}.

Definition raw_external (x : External.t) : Raw.External.t := {|
  Raw.External.firstname := External.firstname x;
  Raw.External.lastname := External.lastname x;
  Raw.External.status := External.status x;
  Raw.External.workforceUtilisation :=
    option_map raw_utilisation (External.workforceUtilisation x)
|}.

Definition raw_record (r : SourceDataType) : Raw.SourceDataType := {|
  Raw.employees := option_map raw_employee (employees r);
  Raw.externals := option_map raw_external (externals r)
|}.

Definition raw_input (l : list SourceDataType) : list (option Raw.SourceDataType) :=
  map (fun r => Some (raw_record r)) l.

(** A named, active employee whose [lastThreeMonthsIndividually] is
    [[null]]. *)
Definition null_month : Raw.SourceDataType := {|
  Raw.employees := Some {|
    Raw.Employee.firstname := Some "Nora";
    Raw.Employee.lastname := Some "Null";
    Raw.Employee.statusAggregation := Some {| StatusAggregation.status := Some "Aktiv" |};
    Raw.Employee.workforceUtilisation := Some {|
      Raw.WorkforceUtilisation.utilisationRateLastTwelveMonths := Some "0.5";
      Raw.WorkforceUtilisation.utilisationRateYearToDate := Some "0.5";
      Raw.WorkforceUtilisation.lastThreeMonthsIndividually := Some [None]
    |};
    Raw.Employee.costsByMonth := None
  |};
  Raw.externals := None
|}.

(** An employee whose entry for June 2025 has the empty string as costs. *)
Definition emil : Employee.t := {|
  Employee.firstname := Some "Emil";
  Employee.lastname := Some "Leer";
  Employee.statusAggregation := None;
  Employee.workforceUtilisation := None;
  Employee.costsByMonth := Some {|
    CostsByMonth.potentialEarningsByMonth :=
      Some [ {| MonthEarnings.month := Some "2025-06"; MonthEarnings.costs := Some "" |} ]
  |}
|}.

Definition empty_costs : SourceDataType := {| employees := Some emil; externals := None |}.

(** Local midnight of 15 July 50, of 10 January 1000 and of 10 February
    10000. *)
Definition july_of_year_50 : Z := -60572448000000.
Definition january_1000 : Z := -30609446400000.
Definition february_10000 : Z := 253405756800000.

(** * Properties *)

(** [C] is a disjunction of equations [x = v1 \/ ... \/ x = vn]: run [tac]
    with [x] replaced by each value in turn. *)
Ltac enumerate x C tac :=
  repeat (destruct C as [C | C]; [subst x; tac |]); subst x; tac.

(** ** Calendar arithmetic *)

Section Calendar.
Import JSDate.

Lemma DaysInYear_cases (y : Z) : DaysInYear y = 365 \/ DaysInYear y = 366.
Proof.
  unfold DaysInYear.
  destruct (y mod 4 =? 0), (y mod 100 =? 0), (y mod 400 =? 0); simpl; auto.
Qed.

Lemma leap_cases (y : Z) : leap y = 0 \/ leap y = 1.
Proof. unfold leap. destruct (DaysInYear y =? 366); auto. Qed.

Lemma DaysInYear_leap (y : Z) : DaysInYear y = 365 + leap y.
Proof.
  unfold leap. destruct (DaysInYear_cases y) as [H | H]; rewrite H; reflexivity.
Qed.

Lemma quarter_step (y : Z) :
  (y - 1968) / 4 = (y - 1969) / 4 + (if y mod 4 =? 0 then 1 else 0).
Proof. destruct (Z.eqb_spec (y mod 4) 0); Z.div_mod_to_equations; lia. Qed.

Lemma century_step (y : Z) :
  (y - 1900) / 100 = (y - 1901) / 100 + (if y mod 100 =? 0 then 1 else 0).
Proof. destruct (Z.eqb_spec (y mod 100) 0); Z.div_mod_to_equations; lia. Qed.

Lemma quadricentennial_step (y : Z) :
  (y - 1600) / 400 = (y - 1601) / 400 + (if y mod 400 =? 0 then 1 else 0).
Proof. destruct (Z.eqb_spec (y mod 400) 0); Z.div_mod_to_equations; lia. Qed.

Lemma mod_100_4 (y : Z) : y mod 100 = 0 -> y mod 4 = 0.
Proof. intros. Z.div_mod_to_equations. lia. Qed.

Lemma mod_400_100 (y : Z) : y mod 400 = 0 -> y mod 100 = 0.
Proof. intros. Z.div_mod_to_equations. lia. Qed.

(** A year is as long as [DaysInYear] says. *)
Lemma DayFromYear_succ (y : Z) :
  DayFromYear (y + 1) = DayFromYear y + DaysInYear y.
Proof.
  unfold DayFromYear, DaysInYear.
  replace (y + 1 - 1969) with (y - 1968) by lia.
  replace (y + 1 - 1901) with (y - 1900) by lia.
  replace (y + 1 - 1601) with (y - 1600) by lia.
  rewrite quarter_step, century_step, quadricentennial_step.
  destruct (Z.eqb_spec (y mod 4) 0) as [H4 | H4],
    (Z.eqb_spec (y mod 100) 0) as [H100 | H100],
    (Z.eqb_spec (y mod 400) 0) as [H400 | H400]; cbn [negb]; try lia;
    first [ apply mod_400_100 in H400; contradiction
          | apply mod_100_4 in H100; contradiction ].
Qed.

Lemma DayFromYear_linear (y : Z) :
  146097 * (y - 1970) - 1000 <= 400 * DayFromYear y <= 146097 * (y - 1970) + 1000.
Proof. unfold DayFromYear. Z.div_mod_to_equations. lia. Qed.

Lemma DayFromYear_mono (a b : Z) : a <= b -> DayFromYear a <= DayFromYear b.
Proof. unfold DayFromYear. intros. Z.div_mod_to_equations. lia. Qed.

(** [YearFromDay] is the year the day falls in ... *)
Lemma YearFromDay_spec (d : Z) :
  DayFromYear (YearFromDay d) <= d < DayFromYear (YearFromDay d + 1).
Proof.
  unfold YearFromDay.
  set (y0 := 1970 + d * 400 / 146097).
  assert (H0 : 146097 * (y0 - 1970) <= 400 * d < 146097 * (y0 - 1970) + 146097).
  { unfold y0. Z.div_mod_to_equations. lia. }
  pose proof (DayFromYear_linear (y0 - 1)) as Hm.
  pose proof (DayFromYear_linear (y0 + 1 + 1)) as Hp.
  destruct (Z.ltb_spec d (DayFromYear y0)).
  - replace (y0 - 1 + 1) with y0 by lia. lia.
  - destruct (Z.leb_spec (DayFromYear (y0 + 1)) d); lia.
Qed.

(** ... and the only such year. *)
Lemma YearFromDay_unique (y d : Z) :
  DayFromYear y <= d < DayFromYear (y + 1) -> YearFromDay d = y.
Proof.
  intros H. pose proof (YearFromDay_spec d) as S.
  destruct (Z.lt_trichotomy (YearFromDay d) y) as [L | [E | G]]; trivial.
  - pose proof (DayFromYear_mono (YearFromDay d + 1) y ltac:(lia)). lia.
  - pose proof (DayFromYear_mono (y + 1) (YearFromDay d) ltac:(lia)). lia.
Qed.

Lemma Day_MakeDate (day : Z) : Day (MakeDate day 0) = day.
Proof.
  unfold Day, MakeDate, msPerDay. rewrite Z.add_0_r. apply Z.div_mul. lia.
Qed.

Lemma MonthFromTime_range (t : Z) : 0 <= MonthFromTime t <= 11.
Proof.
  unfold MonthFromTime.
  repeat match goal with
         | |- context [if ?c then _ else _] => destruct c
         end; lia.
Qed.

Lemma month_start_range (y mn : Z) :
  0 <= mn <= 11 -> 0 <= month_start y mn < 365.
Proof.
  intros H. pose proof (leap_cases y) as L.
  assert (C : mn = 0 \/ mn = 1 \/ mn = 2 \/ mn = 3 \/ mn = 4 \/ mn = 5 \/ mn = 6
              \/ mn = 7 \/ mn = 8 \/ mn = 9 \/ mn = 10 \/ mn = 11) by lia.
  unfold month_start. enumerate mn C lia.
Qed.

(** The first day of month [mn] of year [y] reads back as that year ... *)
Lemma YearFromTime_first_of_month (y mn : Z) :
  0 <= mn <= 11 ->
  YearFromTime (MakeDate (DayFromYear y + month_start y mn + 1 - 1) 0) = y.
Proof.
  intros H. unfold YearFromTime. rewrite Day_MakeDate.
  apply YearFromDay_unique. rewrite DayFromYear_succ, DaysInYear_leap.
  pose proof (month_start_range y mn H). pose proof (leap_cases y). lia.
Qed.

(** ... and that month. *)
Lemma MonthFromTime_first_of_month (y mn : Z) :
  0 <= mn <= 11 ->
  MonthFromTime (MakeDate (DayFromYear y + month_start y mn + 1 - 1) 0) = mn.
Proof.
  intros H. unfold MonthFromTime, DayWithinYear, InLeapYear.
  rewrite (YearFromTime_first_of_month y mn H), Day_MakeDate.
  replace (DayFromYear y + month_start y mn + 1 - 1 - DayFromYear y)
    with (month_start y mn) by lia.
  assert (C : mn = 0 \/ mn = 1 \/ mn = 2 \/ mn = 3 \/ mn = 4 \/ mn = 5 \/ mn = 6
              \/ mn = 7 \/ mn = 8 \/ mn = 9 \/ mn = 10 \/ mn = 11) by lia.
  unfold month_start.
  destruct (leap_cases y) as [L | L]; rewrite L; enumerate mn C reflexivity.
Qed.

(** Going one month back from month [m] of year [y]: month arithmetic on
    the constructor's arguments carries into the year. *)
Lemma previous_month_carry (m : Z) :
  0 <= m <= 11 ->
  (m - 1) / 12 = (if m =? 0 then -1 else 0) /\
  (m - 1) mod 12 = (if m =? 0 then 11 else m - 1).
Proof.
  intros H. destruct (Z.eqb_spec m 0); Z.div_mod_to_equations; lia.
Qed.

End Calendar.

(** ** Decimal numerals *)

Section Numerals.
Import JSString.

Lemma append_assoc (a b c : string) : (a ++ b) ++ c = a ++ (b ++ c).
Proof. induction a as [| x a IH]; simpl; [| rewrite IH]; reflexivity. Qed.

Lemma length_append (a b : string) :
  String.length (a ++ b) = (String.length a + String.length b)%nat.
Proof. induction a as [| x a IH]; simpl; [| rewrite IH]; reflexivity. Qed.

Lemma take_append (a b : string) : take (String.length a) (a ++ b) = a.
Proof. induction a as [| x a IH]; simpl; [destruct b | rewrite IH]; reflexivity. Qed.

Lemma drop_append (a b : string) : drop (String.length a) (a ++ b) = b.
Proof. induction a as [| x a IH]; simpl; [destruct b | rewrite IH]; reflexivity. Qed.

(** The accumulator of [digits_loop] is a suffix of its result. *)
Lemma digits_loop_acc (fuel : nat) :
  forall n acc, digits_loop fuel n acc = digits_loop fuel n "" ++ acc.
Proof.
  induction fuel as [| fuel IH]; intros n acc; simpl.
  - reflexivity.
  - destruct (n <? 10).
    + reflexivity.
    + rewrite IH. rewrite (IH _ (String _ "")). rewrite append_assoc. reflexivity.
Qed.

(** Any fuel above the binary length of [n] gives the same numeral. *)
Lemma digits_loop_enough (f1 : nat) :
  forall f2 n acc,
    0 <= n < 2 ^ Z.of_nat f1 -> 0 <= n < 2 ^ Z.of_nat f2 ->
    (1 <= f1)%nat -> (1 <= f2)%nat ->
    digits_loop f1 n acc = digits_loop f2 n acc.
Proof.
  induction f1 as [| f1 IH]; intros f2 n acc H1 H2 L1 L2; [lia |].
  destruct f2 as [| f2]; [lia |].
  simpl. destruct (Z.ltb_spec n 10) as [Hn | Hn]; [reflexivity |].
  rewrite Nat2Z.inj_succ, Z.pow_succ_r in H1, H2 by lia.
  assert (f1 <> O) by (intros ->; simpl in H1; lia).
  assert (f2 <> O) by (intros ->; simpl in H2; lia).
  apply IH; try lia; split;
    try (apply Z.div_pos; lia);
    apply Z.div_lt_upper_bound; lia.
Qed.

Lemma of_nonneg_fuel (n : Z) :
  0 <= n -> 0 <= n < 2 ^ Z.of_nat (S (Z.to_nat (Z.log2 n))).
Proof.
  intros H. split; [assumption |].
  rewrite Nat2Z.inj_succ, Z2Nat.id by apply Z.log2_nonneg.
  destruct (Z.eq_dec n 0) as [-> | Hn]; [reflexivity |].
  apply Z.log2_spec. lia.
Qed.

Lemma of_nonneg_digit (n : Z) :
  0 <= n < 10 -> of_nonneg n = String (digit_char n) "".
Proof.
  intros H. unfold of_nonneg. simpl.
  destruct (Z.ltb_spec n 10); [| lia].
  rewrite Z.mod_small by lia. reflexivity.
Qed.

Lemma of_nonneg_step (n : Z) :
  10 <= n ->
  of_nonneg n = of_nonneg (n / 10) ++ String (digit_char (n mod 10)) "".
Proof.
  intros H. unfold of_nonneg at 1.
  pose proof (of_nonneg_fuel n ltac:(lia)) as F.
  remember (Z.to_nat (Z.log2 n)) as f eqn:Ef.
  assert (Hf : f <> O).
  { intros ->. simpl in F. lia. }
  simpl. destruct (Z.ltb_spec n 10); [lia |].
  rewrite digits_loop_acc. f_equal.
  assert (0 <= n / 10) by (apply Z.div_pos; lia).
  unfold of_nonneg.
  apply digits_loop_enough; try lia.
  - rewrite Nat2Z.inj_succ, Z.pow_succ_r in F by lia.
    split; [assumption | apply Z.div_lt_upper_bound; lia].
  - apply of_nonneg_fuel. assumption.
Qed.

Lemma of_Z_four_digits (n : Z) :
  1000 <= n <= 9999 -> of_Z n = four_digits n.
Proof.
  intros H. unfold of_Z. destruct (Z.ltb_spec n 0); [lia |].
  assert (H1 : 100 <= n / 10 <= 999) by (Z.div_mod_to_equations; lia).
  assert (H2 : 10 <= n / 10 / 10 <= 99) by (Z.div_mod_to_equations; lia).
  assert (H3 : 1 <= n / 10 / 10 / 10 <= 9) by (Z.div_mod_to_equations; lia).
  rewrite (of_nonneg_step n), (of_nonneg_step (n / 10)),
    (of_nonneg_step (n / 10 / 10)), of_nonneg_digit by lia.
  unfold four_digits. rewrite !Z.div_div by lia. reflexivity.
Qed.

Lemma padStart_two_digits (k : Z) :
  1 <= k <= 12 -> padStart 2 "0" (of_Z k) = two_digits k.
Proof.
  intros H.
  assert (C : k = 1 \/ k = 2 \/ k = 3 \/ k = 4 \/ k = 5 \/ k = 6 \/ k = 7
              \/ k = 8 \/ k = 9 \/ k = 10 \/ k = 11 \/ k = 12) by lia.
  enumerate k C reflexivity.
Qed.

End Numerals.

(** ** The previous-month key *)

Section PrevMonthKey.
Import JSDate.

(** The key depends on the clock only through its year and month. *)
Lemma getPrevMonthKey_same_month (c1 c2 : Z) :
  YearFromTime c1 = YearFromTime c2 ->
  MonthFromTime c1 = MonthFromTime c2 ->
  getPrevMonthKey c1 = getPrevMonthKey c2.
Proof.
  intros Hy Hm. unfold getPrevMonthKey, current, getFullYear, getMonth, plus.
  cbn [option_map]. rewrite Hy, Hm. reflexivity.
Qed.

(** When the current year is not one of 0..99 and the first of the
    previous month is a valid date, the key names the month [m - 1] of the
    current year, carried into the year before for January. *)
Lemma getPrevMonthKey_carry (clock : Z) :
  let y := YearFromTime clock in
  let m := MonthFromTime clock in
  let y' := y + (m - 1) / 12 in
  let m' := (m - 1) mod 12 in
  (y < 0 \/ 99 < y) ->
  Z.abs (MakeDate (MakeDay y (m - 1) 1) 0) <= 8640000000000000 ->
  getPrevMonthKey clock =
    JSString.of_Z y' ++ "-" ++ JSString.padStart 2 "0" (JSString.of_Z (m' + 1)).
Proof.
  intros y m y' m' Hy Hclip.
  unfold getPrevMonthKey, current, getFullYear, getMonth, plus, of_fields.
  cbn [option_map]. fold y m.
  replace ((0 <=? y) && (y <=? 99)) with false
    by (symmetry; apply andb_false_iff; lia).
  replace (m + -1) with (m - 1) by lia.
  unfold TimeClip.
  destruct (Z.ltb_spec 8640000000000000 (Z.abs (MakeDate (MakeDay y (m - 1) 1) 0)));
    [lia |].
  cbn [option_map show]. unfold MakeDay. fold y' m'.
  assert (Hm' : 0 <= m' <= 11) by (unfold m'; Z.div_mod_to_equations; lia).
  rewrite (YearFromTime_first_of_month y' m' Hm'),
    (MonthFromTime_first_of_month y' m' Hm').
  reflexivity.
Qed.

End PrevMonthKey.

(** C5: for every clock reading in a year from 1001 to 9999 (so that the
    year of the previous month prints with four digits), the previous-month
    key is "YYYY-MM" for the calendar month before the current one.  With
    [m] the current month counted from 0 (January), the month before has
    the number [m] counted from 1 and lies in the same year; for January it
    is month 12 of the year before.  The month is always two digits. *)
Theorem getPrevMonthKey_previous_month (clock : Z) :
  let y := JSDate.YearFromTime clock in
  let m := JSDate.MonthFromTime clock in
  1001 <= y <= 9999 ->
  getPrevMonthKey clock =
    four_digits (if m =? 0 then y - 1 else y) ++ "-" ++
    two_digits (if m =? 0 then 12 else m).
Proof.
  intros y m Hy.
  pose proof (MonthFromTime_range clock) as Hm. fold m in Hm.
  destruct (previous_month_carry m Hm) as [Hq Hr].
  assert (Hm' : 0 <= (m - 1) mod 12 <= 11) by (Z.div_mod_to_equations; lia).
  pose proof (month_start_range (y + (m - 1) / 12) ((m - 1) mod 12) Hm') as Hs.
  pose proof (DayFromYear_linear (y + (m - 1) / 12)) as Hl.
  rewrite (getPrevMonthKey_carry clock); fold y m.
  - rewrite Hq, Hr.
    destruct (Z.eqb_spec m 0) as [E | E].
    + rewrite of_Z_four_digits, padStart_two_digits by lia.
      replace (y + -1) with (y - 1) by lia. reflexivity.
    + rewrite of_Z_four_digits, padStart_two_digits by lia.
      replace (y + 0) with y by lia. replace (m - 1 + 1) with m by lia. reflexivity.
  - lia.
  - unfold JSDate.MakeDate, JSDate.MakeDay, JSDate.msPerDay.
    assert (- 1 <= (m - 1) / 12 <= 0) by (destruct (m =? 0); lia).
    lia.
Qed.

(** ** Which records yield a row *)

Section Projection.
Variable clock : Z.

Lemma truthy_nonempty (v : option string) : JSString.truthy v = nonempty v.
Proof. destruct v as [[| c s] |]; reflexivity. Qed.

Lemma isValidRow_active_and_named (r : SourceDataType) :
  Refactored.isValidRow r = active_and_named r.
Proof.
  unfold Refactored.isValidRow, Refactored.isInactiveEmployee,
    Refactored.isInactiveExternal, Refactored.hasValidName, active_and_named,
    employees_or_externals.
  destruct r as [[e |] [x |]];
    cbn [employees externals present opt_chain option_map andb orb negb];
    rewrite ?truthy_nonempty, ?andb_true_r, ?negb_involutive; reflexivity.
Qed.

(** The refactored callback builds [row_for] whenever a person is there. *)
Lemma Refactored_project_row (r : SourceDataType) :
  Refactored.project clock r = option_map (row_for clock r) (employees_or_externals r).
Proof.
  unfold Refactored.project, Refactored.extractPerson, row_for, month_rate, utilisation_of.
  destruct (employees_or_externals r) as [p |]; reflexivity.
Qed.

Lemma isValidRow_person (r : SourceDataType) :
  Refactored.isValidRow r = true -> exists p, employees_or_externals r = Some p.
Proof.
  unfold Refactored.isValidRow, Refactored.hasValidName.
  destruct (employees_or_externals r) as [p |]; [eauto |].
  cbn [opt_chain JSString.truthy andb]. rewrite andb_false_r. discriminate.
Qed.

Lemma find_or_empty {A : Type} (f : A -> bool) (o : option (list A)) :
  find f match o with Some arr => arr | None => [] end = o ?. find f.
Proof. destruct o; reflexivity. Qed.

(** The inline callback never throws; it builds [row_for] for the records
    it finds active and returns [null] for the others. *)
Lemma TableScript_project_row (r : SourceDataType) :
  TableScript.project clock r =
    Normal (if active r then option_map (row_for clock r) (employees_or_externals r)
            else None).
Proof.
  unfold TableScript.project, active, row_for, month_rate, utilisation_of,
    employees_or_externals.
  destruct r as [[e |] [x |]]; cbn [employees externals present option_map bind opt_chain].
  - destruct (JSString.strict_eq _ "Inaktiv"); cbn [negb];
      rewrite ?find_or_empty; reflexivity.
  - destruct (JSString.strict_eq _ "Inaktiv"); cbn [negb];
      rewrite ?find_or_empty; reflexivity.
  - destruct (JSString.strict_eq _ "active"); cbn [negb];
      rewrite ?find_or_empty; reflexivity.
  - reflexivity.
Qed.

Lemma active_person (r : SourceDataType) :
  active r = true -> exists p, employees_or_externals r = Some p.
Proof.
  unfold active, employees_or_externals.
  destruct r as [[e |] [x |]]; cbn [employees externals option_map]; eauto.
  discriminate.
Qed.

Lemma Array_map_Normal {A B : Type} (f : A -> completion B) (g : A -> B) (l : list A) :
  (forall a, f a = Normal (g a)) -> Array_map f l = Normal (map g l).
Proof.
  intros Hf. induction l as [| a l IH]; simpl.
  - reflexivity.
  - rewrite Hf, IH. reflexivity.
Qed.

(** The inline pipeline as a plain filter-and-map. *)
Lemma TableScript_tableData_rows (l : list SourceDataType) :
  TableScript.tableData clock l =
    Normal (filter_non_null
              (map (fun r => if active r
                             then option_map (row_for clock r) (employees_or_externals r)
                             else None) l)).
Proof.
  unfold TableScript.tableData.
  rewrite (Array_map_Normal _ _ l TableScript_project_row). reflexivity.
Qed.

Lemma filter_subsequence {A : Type} (f : A -> bool) (l : list A) :
  subsequence (filter f l) l.
Proof.
  induction l as [| a l IH]; simpl.
  - constructor.
  - destruct (f a); constructor; assumption.
Qed.

(** Rows of the inline pipeline: one per active record, in order. *)
Lemma TableScript_rows_of_active (l : list SourceDataType) :
  exists rows,
    TableScript.tableData clock l = Normal rows /\
    Forall2 (fun r row => TableScript.project clock r = Normal (Some row))
      (filter active l) rows.
Proof.
  rewrite TableScript_tableData_rows. eexists. split; [reflexivity |].
  induction l as [| r l IH]; simpl.
  - constructor.
  - destruct (active r) eqn:Ha.
    + destruct (active_person r Ha) as [p Hp]. rewrite Hp. simpl.
      constructor; [| assumption].
      rewrite TableScript_project_row, Ha, Hp. reflexivity.
    + assumption.
Qed.

(** Rows of the refactored pipeline: one per valid record, in order. *)
Lemma Refactored_rows_of_valid (l : list SourceDataType) :
  Forall2 (fun r row => Refactored.project clock r = Some row)
    (filter Refactored.isValidRow l) (Refactored.tableData clock l).
Proof.
  unfold Refactored.tableData.
  induction l as [| r l IH]; simpl.
  - constructor.
  - destruct (Refactored.isValidRow r) eqn:Hv; [| assumption].
    destruct (isValidRow_person r Hv) as [p Hp].
    simpl. rewrite Refactored_project_row, Hp. simpl.
    constructor; [| assumption].
    rewrite Refactored_project_row, Hp. reflexivity.
Qed.

Lemma Forall2_same_length {A B : Type} (R : A -> B -> Prop) (l : list A) (l' : list B) :
  Forall2 R l l' -> List.length l = List.length l'.
Proof. induction 1; simpl; congruence. Qed.

Lemma filter_length_le {A : Type} (f : A -> bool) (l : list A) :
  (List.length (filter f l) <= List.length l)%nat.
Proof.
  induction l as [| a l IH]; simpl; [lia |]. destruct (f a); simpl; lia.
Qed.

(** The refactored pipeline meets the activity-and-name predicate: its
    rows are the rows of the records passing it, one each, in order, so
    the row count is the number of passing records and at most the number
    of records. *)
Lemma Refactored_tableData_active_and_named (l : list SourceDataType) :
  Forall2 (fun r row => Refactored.project clock r = Some row)
    (filter active_and_named l) (Refactored.tableData clock l) /\
  List.length (Refactored.tableData clock l) = List.length (filter active_and_named l) /\
  (List.length (Refactored.tableData clock l) <= List.length l)%nat.
Proof.
  rewrite <- (filter_ext _ _ isValidRow_active_and_named l).
  pose proof (Refactored_rows_of_valid l) as F.
  pose proof (Forall2_same_length _ _ _ F) as E.
  pose proof (filter_length_le Refactored.isValidRow l).
  repeat split; [assumption | | ]; lia.
Qed.

(** Where the two filters decide alike, the two pipelines agree. *)
Lemma pipelines_agree (l : list SourceDataType) :
  Forall (fun r => active r = Refactored.isValidRow r) l ->
  TableScript.tableData clock l = Normal (Refactored.tableData clock l).
Proof.
  intros H. rewrite TableScript_tableData_rows. f_equal.
  unfold Refactored.tableData.
  induction H as [| r l Hr _ IH]; simpl.
  - reflexivity.
  - rewrite Hr. destruct (Refactored.isValidRow r); simpl.
    + rewrite Refactored_project_row, IH. reflexivity.
    + assumption.
Qed.

Lemma well_formed_filters_agree (r : SourceDataType) :
  well_formed r -> active r = Refactored.isValidRow r.
Proof.
  unfold well_formed, active, Refactored.isValidRow, Refactored.isInactiveEmployee,
    Refactored.isInactiveExternal.
  destruct r as [[e |] [x |]];
    cbn [employees externals present andb negb];
    intros [[D | D] Hn]; try discriminate D.
  - destruct (JSString.strict_eq _ "Inaktiv"); cbn [negb andb] in *;
      [reflexivity | rewrite Hn; reflexivity].
  - rewrite negb_involutive.
    destruct (JSString.strict_eq _ "active"); cbn [negb andb] in *;
      [rewrite Hn; reflexivity | reflexivity].
  - unfold Refactored.hasValidName, employees_or_externals. reflexivity.
  - unfold Refactored.hasValidName, employees_or_externals. reflexivity.
Qed.

Lemma pipelines_agree_well_formed (l : list SourceDataType) :
  Forall well_formed l ->
  TableScript.tableData clock l = Normal (Refactored.tableData clock l).
Proof.
  intros H. apply pipelines_agree.
  eapply Forall_impl; [| exact H]. exact well_formed_filters_agree.
Qed.

End Projection.

(** ** Net earnings of the previous month *)

Section NetEarnings.

Lemma strict_eq_true (v : option string) (lit : string) :
  JSString.strict_eq v lit = true <-> v = Some lit.
Proof.
  destruct v as [s |]; simpl.
  - rewrite String.eqb_eq. split; congruence.
  - split; discriminate.
Qed.

Lemma strict_eq_false (v : option string) (lit : string) :
  JSString.strict_eq v lit = false <-> v <> Some lit.
Proof.
  rewrite <- strict_eq_true. destruct (JSString.strict_eq v lit); split; congruence.
Qed.

Lemma find_first_match (key : string) (arr : list MonthEarnings.t) (entry : MonthEarnings.t) :
  first_match key arr entry ->
  find (fun e => JSString.strict_eq (MonthEarnings.month e) key) arr = Some entry.
Proof.
  intros [before [after [-> [Hb He]]]].
  induction Hb as [| e before Hne _ IH]; simpl.
  - apply strict_eq_true in He. rewrite He. reflexivity.
  - apply strict_eq_false in Hne. rewrite Hne. exact IH.
Qed.

Lemma find_no_match (key : string) (arr : list MonthEarnings.t) :
  no_match key arr ->
  find (fun e => JSString.strict_eq (MonthEarnings.month e) key) arr = None.
Proof.
  induction 1 as [| e arr Hne _ IH]; simpl.
  - reflexivity.
  - apply strict_eq_false in Hne. rewrite Hne. exact IH.
Qed.

Lemma getNetEarningsPrevMonth_find (clock : Z) (r : SourceDataType) :
  getNetEarningsPrevMonth clock r =
    JSNumber.toString
      (JSNumber.parseFloat
         match find (fun e => JSString.strict_eq (MonthEarnings.month e)
                                (getPrevMonthKey clock)) (earnings r)
                 ?. MonthEarnings.costs with
         | Some c => c
         | None => "0"
         end) ++ " €".
Proof. reflexivity. Qed.

Lemma toString_zero : JSNumber.toString (JSNumber.parseFloat "0") = "0".
Proof. vm_compute. reflexivity. Qed.

Lemma toString_3500 : JSNumber.toString (JSNumber.parseFloat "3500") = "3500".
Proof. vm_compute. reflexivity. Qed.

Lemma getNetEarningsPrevMonth_no_match (clock : Z) (r : SourceDataType) :
  no_match (getPrevMonthKey clock) (earnings r) ->
  getNetEarningsPrevMonth clock r = "0 €".
Proof.
  intros H. rewrite getNetEarningsPrevMonth_find, (find_no_match _ _ H).
  cbn [opt_chain]. rewrite toString_zero. reflexivity.
Qed.

Lemma getNetEarningsPrevMonth_no_employee (clock : Z) (r : SourceDataType) :
  employees r = None -> getNetEarningsPrevMonth clock r = "0 €".
Proof.
  intros H. apply getNetEarningsPrevMonth_no_match.
  unfold earnings. rewrite H. constructor.
Qed.

Lemma getNetEarningsPrevMonth_match (clock : Z) (r : SourceDataType) (entry : MonthEarnings.t) :
  first_match (getPrevMonthKey clock) (earnings r) entry ->
  getNetEarningsPrevMonth clock r =
    JSNumber.toString
      (JSNumber.parseFloat
         match MonthEarnings.costs entry with Some c => c | None => "0" end) ++ " €".
Proof.
  intros H. rewrite getNetEarningsPrevMonth_find, (find_first_match _ _ _ H).
  reflexivity.
Qed.

Lemma getNetEarningsPrevMonth_same_month (c1 c2 : Z) (r : SourceDataType) :
  JSDate.YearFromTime c1 = JSDate.YearFromTime c2 ->
  JSDate.MonthFromTime c1 = JSDate.MonthFromTime c2 ->
  getNetEarningsPrevMonth c1 r = getNetEarningsPrevMonth c2 r.
Proof.
  intros Hy Hm. rewrite !getNetEarningsPrevMonth_find.
  rewrite (getPrevMonthKey_same_month c1 c2 Hy Hm). reflexivity.
Qed.

End NetEarnings.

(** C1, at the record [nameless_employee]: the record fails the
    activity-and-name predicate (its first name is empty) and the refactored
    pipeline drops it, yet the inline pipeline of table-script.tsx emits a
    row for it, whatever the date. *)
Theorem inline_pipeline_keeps_nameless_employee :
  active_and_named nameless_employee = false /\
  (forall clock, Refactored.tableData clock [nameless_employee] = []) /\
  (forall clock,
     TableScript.tableData clock [nameless_employee] =
       Normal [ {| person := " Doe"; past12Months := "0%"; y2d := "0%";
                   may := "0%"; june := "0%"; july := "0%";
                   netEarningsPrevMonth := "0 €" |} ]).
Proof.
  split; [reflexivity |]. split; [reflexivity |].
  intros clock. rewrite TableScript_tableData_rows.
  cbn [map active nameless_employee employees]. cbn.
  unfold row_for. rewrite getNetEarningsPrevMonth_no_match by constructor.
  reflexivity.
Qed.

(** C2, at the record [unnamed_external]: the inline pipeline emits the row
    "undefined Smith" while the refactored pipeline emits nothing, so the two
    do not compute the same rows. *)
Theorem pipelines_differ_on_unnamed_external :
  forall clock,
    TableScript.tableData clock [unnamed_external] =
      Normal [ {| person := "undefined Smith"; past12Months := "0%"; y2d := "0%";
                  may := "0%"; june := "0%"; july := "0%";
                  netEarningsPrevMonth := "0 €" |} ] /\
    Refactored.tableData clock [unnamed_external] = [] /\
    TableScript.tableData clock [unnamed_external] <>
      Normal (Refactored.tableData clock [unnamed_external]).
Proof.
  intros clock.
  assert (E : TableScript.tableData clock [unnamed_external] =
      Normal [ {| person := "undefined Smith"; past12Months := "0%"; y2d := "0%";
                  may := "0%"; june := "0%"; july := "0%";
                  netEarningsPrevMonth := "0 €" |} ]).
  { rewrite TableScript_tableData_rows. cbn.
    unfold row_for. rewrite getNetEarningsPrevMonth_no_employee by reflexivity.
    reflexivity. }
  split; [exact E |]. split; [reflexivity |].
  rewrite E. discriminate.
Qed.

(** A second difference between the pipelines, outside the data model's
    one-variant records: with both variants present the inline pipeline
    looks at the employee only, the refactored filter at both. *)
Lemma pipelines_differ_on_both_variants :
  forall clock,
    (exists row, TableScript.tableData clock [both_variants] = Normal [row]) /\
    Refactored.tableData clock [both_variants] = [].
Proof.
  intros clock. split; [| reflexivity].
  rewrite TableScript_tableData_rows. eexists. reflexivity.
Qed.

(** C6: in both pipelines the rows come, in order, from a subsequence of
    the input records: there is a subsequence [kept] of the input such that
    the output is exactly the list of rows projected from [kept], record by
    record; nothing is reordered.  The inline pipeline does return such a
    list (it does not throw). *)
Theorem tableData_order_preserving (clock : Z) (sourceData : list SourceDataType) :
  (exists kept rows,
     TableScript.tableData clock sourceData = Normal rows /\
     subsequence kept sourceData /\
     Forall2 (fun r row => TableScript.project clock r = Normal (Some row)) kept rows) /\
  (exists kept,
     subsequence kept sourceData /\
     Forall2 (fun r row => Refactored.project clock r = Some row)
       kept (Refactored.tableData clock sourceData)).
Proof.
  split.
  - destruct (TableScript_rows_of_active clock sourceData) as [rows [E F]].
    exists (filter active sourceData), rows.
    repeat split; [assumption | apply filter_subsequence | assumption].
  - exists (filter Refactored.isValidRow sourceData).
    split; [apply filter_subsequence | apply Refactored_rows_of_valid].
Qed.

(** C8: the projector is deterministic.  Its output depends on the clock
    only through the current year and month, so two runs on the same input
    at the same date (indeed at any two instants of the same calendar month)
    return identical row sequences, in both pipelines. *)
Theorem tableData_deterministic (c1 c2 : Z) (sourceData : list SourceDataType) :
  JSDate.YearFromTime c1 = JSDate.YearFromTime c2 ->
  JSDate.MonthFromTime c1 = JSDate.MonthFromTime c2 ->
  TableScript.tableData c1 sourceData = TableScript.tableData c2 sourceData /\
  Refactored.tableData c1 sourceData = Refactored.tableData c2 sourceData.
Proof.
  intros Hy Hm.
  assert (R : forall r p, row_for c1 r p = row_for c2 r p).
  { intros r p. unfold row_for.
    rewrite (getNetEarningsPrevMonth_same_month c1 c2 r Hy Hm). reflexivity. }
  split.
  - rewrite !TableScript_tableData_rows. do 2 f_equal.
    apply map_ext. intros r.
    destruct (active r); [| reflexivity].
    destruct (employees_or_externals r) as [p |]; [| reflexivity].
    simpl. rewrite R. reflexivity.
  - unfold Refactored.tableData. f_equal.
    apply map_ext. intros r. rewrite !Refactored_project_row.
    destruct (employees_or_externals r) as [p |]; [| reflexivity].
    simpl. rewrite R. reflexivity.
Qed.

(** Two instants of July 2025, a day apart, and the scenario record. *)
Lemma tableData_deterministic_witness :
  TableScript.tableData mid_july_2025 [jane] =
    TableScript.tableData (mid_july_2025 + JSDate.msPerDay) [jane] /\
  Refactored.tableData mid_july_2025 [jane] =
    Refactored.tableData (mid_july_2025 + JSDate.msPerDay) [jane].
Proof.
  apply (tableData_deterministic mid_july_2025 (mid_july_2025 + JSDate.msPerDay) [jane]);
    vm_compute; reflexivity.
Defined.

(** C9: the present string "0" formats to "0.0%", while an absent rate and
    the present-but-empty string both format to the default "0%".  The
    empty string is treated as missing: read as a number it would be [NaN],
    which the formatting branch prints as "NaN%". *)
Theorem parseRate_zero_versus_missing :
  parseRate (Some "0") = "0.0%" /\
  parseRate None = "0%" /\
  parseRate (Some "") = "0%" /\
  JSNumber.toFixed 1 (JSNumber.mul (JSNumber.parseFloat "") (JSNumber.of_Z 100)) ++ "%"
    = "NaN%".
Proof.
  split; [vm_compute; reflexivity |]. repeat split.
Qed.

(** C10: an employee record is dropped for inactivity only when
    [statusAggregation.status] is exactly "Inaktiv".  With any other status,
    or with [statusAggregation] or [status] absent, the inline pipeline
    emits a row and the refactored filter keeps the record whenever its
    other two conditions (external status, names) hold; with "Inaktiv" both
    drop it. *)
Theorem employee_inactive_only_when_Inaktiv
  (clock : Z) (r : SourceDataType) (e : Employee.t) :
  employees r = Some e ->
  let status := Employee.statusAggregation e ?. StatusAggregation.status in
  (Refactored.isInactiveEmployee r = true <-> status = Some "Inaktiv") /\
  (status <> Some "Inaktiv" ->
     TableScript.project clock r = Normal (Some (row_for clock r (AnEmployee e))) /\
     Refactored.isValidRow r =
       negb (Refactored.isInactiveExternal r) &&
       Refactored.hasValidName (Some (AnEmployee e))) /\
  (status = Some "Inaktiv" ->
     TableScript.project clock r = Normal None /\ Refactored.isValidRow r = false).
Proof.
  intros He status.
  assert (Hi : Refactored.isInactiveEmployee r = JSString.strict_eq status "Inaktiv").
  { unfold Refactored.isInactiveEmployee. rewrite He. reflexivity. }
  assert (Ha : active r = negb (JSString.strict_eq status "Inaktiv")).
  { unfold active. rewrite He. reflexivity. }
  assert (Hp : employees_or_externals r = Some (AnEmployee e)).
  { unfold employees_or_externals. rewrite He. reflexivity. }
  split; [rewrite Hi; apply strict_eq_true |]. split.
  - intros Hs. apply strict_eq_false in Hs.
    rewrite TableScript_project_row, Ha, Hs, Hp.
    unfold Refactored.isValidRow. rewrite Hi, Hs, Hp. split; reflexivity.
  - intros Hs. apply strict_eq_true in Hs.
    rewrite TableScript_project_row, Ha, Hs.
    unfold Refactored.isValidRow. rewrite Hi, Hs. split; reflexivity.
Qed.

(** An employee without [statusAggregation], at 15 July 2025. *)
Lemma employee_inactive_only_when_Inaktiv_witness :
  employees garbled = Some max_muster /\
  TableScript.project mid_july_2025 garbled =
    Normal (Some (row_for mid_july_2025 garbled (AnEmployee max_muster))) /\
  Refactored.isValidRow garbled = true.
Proof.
  split; [reflexivity |].
  destruct (employee_inactive_only_when_Inaktiv mid_july_2025 garbled max_muster eq_refl)
    as [_ [H _]].
  destruct H as [H1 H2]; [discriminate |].
  split; [exact H1 | rewrite H2; reflexivity].
Defined.

(** C5, at 15 July 2025 and at 10 January 2026: the keys are June 2025 and
    December 2025. *)
Lemma getPrevMonthKey_previous_month_witness :
  getPrevMonthKey mid_july_2025 = "2025-06" /\
  getPrevMonthKey january_2026 = "2025-12".
Proof.
  split.
  - rewrite (getPrevMonthKey_previous_month mid_july_2025).
    + reflexivity.
    + vm_compute. split; discriminate.
  - rewrite (getPrevMonthKey_previous_month january_2026).
    + reflexivity.
    + vm_compute. split; discriminate.
Defined.

(** C4 fails for costs that are present but not a number: on 15 July 2025
    the record [garbled], whose June 2025 entry has costs "n/a", gets
    "NaN €", not the "0 €" of a zero default. *)
Lemma getNetEarningsPrevMonth_unparseable_is_NaN :
  getPrevMonthKey mid_july_2025 = "2025-06" /\
  JSNumber.parseFloat "n/a" = JSNumber.NaN /\
  getNetEarningsPrevMonth mid_july_2025 garbled = "NaN €" /\
  getNetEarningsPrevMonth mid_july_2025 garbled <> "0 €".
Proof.
  assert (E : getNetEarningsPrevMonth mid_july_2025 garbled = "NaN €")
    by (vm_compute; reflexivity).
  split; [vm_compute; reflexivity |]. split; [reflexivity |].
  split; [exact E | rewrite E; discriminate].
Qed.

(** C4, amended: [netEarningsPrevMonth] looks up the first entry of the
    employee's [potentialEarningsByMonth] whose month equals the
    previous-month key.  Without an [employees] variant, without a matching
    entry, or with a matching entry that has no [costs], the result is
    "0 €".  With a matching entry whose [costs] is the string [c], the
    result is the default string form of [parseFloat c] followed by " €",
    with no decimal normalisation: "3500 €" for "3500", and "NaN €" for
    every [c] that does not parse as a number. *)
Theorem getNetEarningsPrevMonth_cases (clock : Z) (r : SourceDataType) :
  let key := getPrevMonthKey clock in
  let net := getNetEarningsPrevMonth clock r in
  (employees r = None -> net = "0 €") /\
  (no_match key (earnings r) -> net = "0 €") /\
  (forall entry,
     first_match key (earnings r) entry ->
     (MonthEarnings.costs entry = None -> net = "0 €") /\
     (forall c, MonthEarnings.costs entry = Some c ->
                net = JSNumber.toString (JSNumber.parseFloat c) ++ " €") /\
     (MonthEarnings.costs entry = Some "3500" -> net = "3500 €") /\
     (forall c, MonthEarnings.costs entry = Some c ->
                JSNumber.parseFloat c = JSNumber.NaN -> net = "NaN €")).
Proof.
  intros key net.
  split; [apply getNetEarningsPrevMonth_no_employee |].
  split; [apply getNetEarningsPrevMonth_no_match |].
  intros entry H. unfold net.
  rewrite (getNetEarningsPrevMonth_match clock r entry H).
  repeat split.
  - intros ->. rewrite toString_zero. reflexivity.
  - intros c ->. reflexivity.
  - intros ->. rewrite toString_3500. reflexivity.
  - intros c -> ->. reflexivity.
Qed.

(** The scenario record on 15 July 2025: its second entry is the first one
    for "2025-06" and carries costs "3500". *)
Lemma getNetEarningsPrevMonth_cases_witness :
  getNetEarningsPrevMonth mid_july_2025 jane = "3500 €" /\
  getNetEarningsPrevMonth mid_july_2025 unnamed_external = "0 €".
Proof.
  destruct (getNetEarningsPrevMonth_cases mid_july_2025 jane) as [_ [_ H]].
  destruct (getNetEarningsPrevMonth_cases mid_july_2025 unnamed_external) as [H0 _].
  split; [| apply H0; reflexivity].
  destruct (H {| MonthEarnings.month := Some "2025-06"; MonthEarnings.costs := Some "3500" |})
    as [_ [_ [H3500 _]]].
  - exists [ {| MonthEarnings.month := Some "2025-05"; MonthEarnings.costs := Some "3100" |} ], [].
    split; [reflexivity |]. split.
    + constructor; [| constructor]. vm_compute. discriminate.
    + vm_compute. reflexivity.
  - apply H3500. reflexivity.
Defined.

(** ** Percentages *)

Section Percentages.
Import JSString JSNumber.

Lemma digit_value_digit_char (d : Z) :
  0 <= d <= 9 -> digit_value (digit_char d) = Some d.
Proof.
  intros H.
  assert (C : d = 0 \/ d = 1 \/ d = 2 \/ d = 3 \/ d = 4 \/ d = 5 \/ d = 6
              \/ d = 7 \/ d = 8 \/ d = 9) by lia.
  enumerate d C reflexivity.
Qed.

Lemma digit_char_not_minus (d : Z) : 0 <= d <= 9 -> digit_char d <> "-"%char.
Proof.
  intros H.
  assert (C : d = 0 \/ d = 1 \/ d = 2 \/ d = 3 \/ d = 4 \/ d = 5 \/ d = 6
              \/ d = 7 \/ d = 8 \/ d = 9) by lia.
  enumerate d C discriminate.
Qed.

(** Reading back a printed numeral: [read_digits] consumes exactly the
    digits of [of_nonneg n] and accumulates [n]. *)
Lemma read_digits_of_nonneg (n : Z) :
  0 <= n ->
  forall acc count rest,
    read_digits acc count (of_nonneg n ++ rest) =
      read_digits (acc * 10 ^ Z.of_nat (String.length (of_nonneg n)) + n)
        (count + String.length (of_nonneg n)) rest.
Proof.
  intros Hn. pattern n. apply Zlt_0_ind; [| exact Hn]. clear n Hn.
  intros n IH Hn acc count rest.
  destruct (Z.lt_ge_cases n 10) as [Hs | Hl].
  - rewrite of_nonneg_digit by lia. cbn [append String.length read_digits].
    rewrite digit_value_digit_char by lia.
    replace (count + 1)%nat with (S count) by lia.
    f_equal. change (Z.of_nat 1) with 1. lia.
  - rewrite of_nonneg_step by lia.
    assert (H10 : 0 <= n / 10 < n) by (Z.div_mod_to_equations; lia).
    rewrite append_assoc, IH by lia.
    cbn [append read_digits].
    rewrite digit_value_digit_char by (Z.div_mod_to_equations; lia).
    rewrite length_append. cbn [String.length].
    replace (count + (String.length (of_nonneg (n / 10)) + 1))%nat
      with (S (count + String.length (of_nonneg (n / 10)))) by lia.
    f_equal.
    rewrite Nat2Z.inj_add, Z.pow_add_r by lia.
    change (Z.of_nat 1) with 1. Z.div_mod_to_equations. lia.
Qed.

Lemma of_nonneg_head (n : Z) :
  0 <= n -> exists d rest, 0 <= d <= 9 /\ of_nonneg n = String (digit_char d) rest.
Proof.
  intros Hn. pattern n. apply Zlt_0_ind; [| exact Hn]. clear n Hn.
  intros n IH Hn.
  destruct (Z.lt_ge_cases n 10) as [Hs | Hl].
  - exists n, "". split; [lia | apply of_nonneg_digit; lia].
  - assert (H10 : 0 <= n / 10 < n) by (Z.div_mod_to_equations; lia).
    destruct (IH (n / 10) H10) as [d [rest [Hd E]]].
    rewrite of_nonneg_step, E by lia.
    exists d. eexists. split; [assumption | reflexivity].
Qed.

(** One fraction digit: the numeral of the tenths [n] with a point before
    its last digit, and a leading "0" when [n] is below ten. *)
Lemma fixed_digits_one (n : Z) :
  0 <= n ->
  fixed_digits 1 n = of_nonneg (n / 10) ++ "." ++ String (digit_char (n mod 10)) "".
Proof.
  intros Hn. unfold fixed_digits.
  destruct (Z.lt_ge_cases n 10) as [Hs | Hl].
  - rewrite Z.div_small, Z.mod_small by lia.
    rewrite of_nonneg_digit by lia. reflexivity.
  - rewrite of_nonneg_step by lia.
    destruct (of_nonneg_head (n / 10) ltac:(Z.div_mod_to_equations; lia))
      as [d [rest [_ E]]].
    rewrite length_append, E. cbn [String.length].
    replace (S (String.length rest) + 1)%nat with (S (S (String.length rest))) by lia.
    cbn [Nat.leb].
    replace (S (S (String.length rest)) - 1)%nat
      with (String.length (String (digit_char d) rest))
      by (cbn [String.length]; lia).
    rewrite take_append, drop_append. reflexivity.
Qed.

Lemma read_one_decimal_fixed (s : bool) (n : Z) :
  0 <= n ->
  read_one_decimal ((if s then "-" else "") ++ fixed_digits 1 n) = Some (s, n).
Proof.
  intros Hn. rewrite fixed_digits_one by assumption.
  assert (Hq : 0 <= n / 10) by (apply Z.div_pos; lia).
  assert (Hr : 0 <= n mod 10 <= 9) by (Z.div_mod_to_equations; lia).
  assert (R : forall neg,
    read_tenths neg (of_nonneg (n / 10) ++ "." ++ String (digit_char (n mod 10)) "")
    = Some (neg, n)).
  { intros neg. unfold read_tenths. rewrite read_digits_of_nonneg by assumption.
    destruct (of_nonneg_head (n / 10) Hq) as [d [rest [_ E]]].
    rewrite E. cbn [String.length Nat.add append read_digits].
    change (digit_value ".") with (@None Z). cbv iota.
    rewrite digit_value_digit_char by assumption.
    f_equal. f_equal. Z.div_mod_to_equations. lia. }
  unfold read_one_decimal. destruct s.
  - cbn [append]. apply R.
  - cbn [append].
    destruct (of_nonneg_head (n / 10) Hq) as [d [rest [Hd E]]].
    pose proof (digit_char_not_minus d Hd) as Hm.
    rewrite E in *. cbn [append] in *.
    destruct (digit_char d) as [b0 b1 b2 b3 b4 b5 b6 b7] eqn:Ed.
    destruct b0, b1, b2, b3, b4, b5, b6, b7; try apply R.
    exfalso. apply Hm. reflexivity.
Qed.

Lemma ratio_of_positive (m : positive) (e : Z) :
  0 < fst (ratio_of m e) /\ 0 < snd (ratio_of m e).
Proof.
  unfold ratio_of. destruct (Z.leb_spec 0 e); cbn [fst snd].
  - split; [| lia]. apply Z.mul_pos_pos; [lia | apply Z.pow_pos_nonneg; lia].
  - split; [lia | apply Z.pow_pos_nonneg; lia].
Qed.

(** The tenths chosen by [toFixed(1)] are the nearest to ten times the
    value, the larger on a tie. *)
Lemma nearest_fixed_one (num den : Z) :
  0 < num -> 0 < den ->
  let n := nearest_fixed 1 num den in
  0 <= n /\ (2 * n - 1) * den <= 20 * num < (2 * n + 1) * den.
Proof.
  intros Hnum Hden n. unfold nearest_fixed in n. change (10 ^ Z.of_nat 1) with 10 in n.
  assert (Hd : 0 < 2 * den) by lia.
  pose proof (Z.div_mod (2 * num * 10 + den) (2 * den) ltac:(lia)) as E.
  pose proof (Z.mod_pos_bound (2 * num * 10 + den) (2 * den) Hd) as B.
  fold n in E.
  assert (0 <= n) by (apply Z.div_pos; lia).
  split; [assumption | nia].
Qed.

End Percentages.

(** C3 fails for input that is present but not a number: "abc" does not
    parse, and its rate is printed as "NaN%", not as "0%". *)
Lemma parseRate_unparseable_is_NaN :
  JSNumber.parseFloat "abc" = JSNumber.NaN /\
  parseRate (Some "abc") = "NaN%" /\
  parseRate (Some "abc") <> "0%".
Proof.
  split; [reflexivity |]. split; [reflexivity | discriminate].
Qed.

(** C3, amended: a missing rate and the empty string format to "0%".  Every
    other string [v] formats to [toFixed(1)] of [parseFloat(v) * 100]
    followed by "%": "0.893" gives exactly "89.3%"; a [v] that does not
    parse as a number gives "NaN%"; a product that is zero gives "0.0%"; and
    a finite product below 10^21 in magnitude is printed as an optional
    minus sign, digits, a point and exactly one more digit, the number of
    tenths [n] so printed being the nearest to ten times the magnitude (the
    larger one on a tie). *)
Theorem parseRate_format :
  parseRate None = "0%" /\
  parseRate (Some "") = "0%" /\
  parseRate (Some "0.893") = "89.3%" /\
  forall v, v <> "" ->
    let x := JSNumber.mul (JSNumber.parseFloat v) (JSNumber.of_Z 100) in
    parseRate (Some v) = JSNumber.toFixed 1 x ++ "%" /\
    (JSNumber.parseFloat v = JSNumber.NaN -> parseRate (Some v) = "NaN%") /\
    (forall s, x = S754_zero s -> parseRate (Some v) = "0.0%") /\
    (forall s m e, x = S754_finite s m e ->
       let num := fst (JSNumber.ratio_of m e) in
       let den := snd (JSNumber.ratio_of m e) in
       num < 10 ^ 21 * den ->
       exists n,
         read_one_decimal (JSNumber.toFixed 1 x) = Some (s, n) /\
         (2 * n - 1) * den <= 20 * num < (2 * n + 1) * den).
Proof.
  split; [reflexivity |]. split; [reflexivity |].
  split; [vm_compute; reflexivity |].
  intros v Hv x.
  assert (E : parseRate (Some v) = JSNumber.toFixed 1 x ++ "%").
  { destruct v as [| c v']; [contradiction | reflexivity]. }
  split; [exact E |]. rewrite E. clear E. repeat split.
  - intros Hnan. unfold x. rewrite Hnan. reflexivity.
  - intros s ->. reflexivity.
  - intros s m e -> num den Hlt.
    destruct (ratio_of_positive m e) as [Hnum Hden]. fold num den in Hnum, Hden.
    destruct (nearest_fixed_one num den Hnum Hden) as [Hn Hnear].
    exists (JSNumber.nearest_fixed 1 num den). split; [| exact Hnear].
    unfold JSNumber.toFixed.
    assert (R : JSNumber.ratio_of m e = (num, den)) by apply surjective_pairing.
    rewrite R.
    destruct (Z.leb_spec (10 ^ 21 * den) num); [lia |].
    apply read_one_decimal_fixed. exact Hn.
Qed.

(** The rate "0.72": its product with 100 is the number 72 (mantissa
    72 * 2^46, exponent -46), printed as "72.0", which reads back as the
    nearest number of tenths. *)
Lemma parseRate_format_witness :
  parseRate (Some "0.72") = "72.0%" /\
  exists n,
    read_one_decimal "72.0" = Some (false, n) /\
    (2 * n - 1) * 2 ^ 46 <= 20 * 5066549580791808 < (2 * n + 1) * 2 ^ 46.
Proof.
  destruct parseRate_format as [_ [_ [_ H]]].
  destruct (H "0.72" ltac:(discriminate)) as [E [_ [_ F]]].
  split; [rewrite E; vm_compute; reflexivity |].
  destruct (F false 5066549580791808%positive (-46) ltac:(vm_compute; reflexivity)
              ltac:(vm_compute; reflexivity)) as [n [R B]].
  exists n. split; [exact R | exact B].
Defined.

(** ** Totality and defaults *)

Section Defaults.

Lemma parseRate_shown (input : option string) : rate_shown input (parseRate input).
Proof.
  repeat split.
  - intros ->. reflexivity.
  - intros ->. reflexivity.
  - intros v -> Hv Hnan. destruct v as [| c v']; [contradiction |].
    unfold parseRate. rewrite Hnan. reflexivity.
Qed.

(** A row either pipeline emits for [r] is [row_for] of its person. *)
Lemma emitted_row (clock : Z) (r : SourceDataType) (row : TableDataType) :
  TableScript.project clock r = Normal (Some row) \/
  Refactored.project clock r = Some row ->
  exists p, row = row_for clock r p.
Proof.
  rewrite TableScript_project_row, Refactored_project_row.
  intros [H | H].
  - destruct (active r); [| discriminate].
    destruct (employees_or_externals r) as [p |]; [| discriminate].
    exists p. simpl in H. congruence.
  - destruct (employees_or_externals r) as [p |]; [| discriminate].
    exists p. simpl in H. congruence.
Qed.

End Defaults.

(** * Further properties of the two pipelines *)

(** ** Rows and records *)

Section Rows.
Variable clock : Z.

Lemma filter_non_null_app {A : Type} (l1 l2 : list (option A)) :
  filter_non_null (l1 ++ l2)%list = (filter_non_null l1 ++ filter_non_null l2)%list.
Proof.
  induction l1 as [| [a |] l1 IH]; simpl; [| rewrite IH |]; auto.
Qed.

Lemma filter_non_null_Some {A : Type} (l : list A) :
  filter_non_null (map Some l) = l.
Proof. induction l as [| a l IH]; simpl; [| rewrite IH]; reflexivity. Qed.

(** What the refactored filter keeps, the inline test keeps too. *)
Lemma isValidRow_active (r : SourceDataType) :
  Refactored.isValidRow r = true -> active r = true.
Proof.
  unfold Refactored.isValidRow, Refactored.isInactiveEmployee,
    Refactored.isInactiveExternal, Refactored.hasValidName, active,
    employees_or_externals.
  destruct r as [[e |] [x |]];
    cbn [employees externals present opt_chain option_map andb negb].
  - destruct (JSString.strict_eq _ "Inaktiv"); [discriminate | reflexivity].
  - destruct (JSString.strict_eq _ "Inaktiv"); [discriminate | reflexivity].
  - destruct (JSString.strict_eq _ "active"); [reflexivity | discriminate].
  - cbn [JSString.truthy]. discriminate.
Qed.

Lemma Refactored_tableData_map (l : list SourceDataType) :
  map (Refactored.project clock) (filter Refactored.isValidRow l) =
    map Some (Refactored.tableData clock l).
Proof.
  unfold Refactored.tableData.
  induction l as [| r l IH]; simpl; [reflexivity |].
  destruct (Refactored.isValidRow r) eqn:Hv; [| exact IH].
  destruct (isValidRow_person r Hv) as [p Hp].
  simpl. rewrite Refactored_project_row, Hp. simpl. f_equal. exact IH.
Qed.

Lemma valid_names (r : SourceDataType) :
  Refactored.isValidRow r = true ->
  exists p fn ln,
    employees_or_externals r = Some p /\
    firstname p = Some fn /\ lastname p = Some ln /\ fn <> "" /\ ln <> "".
Proof.
  intros Hv. destruct (isValidRow_person r Hv) as [p Hp].
  unfold Refactored.isValidRow, Refactored.hasValidName in Hv.
  rewrite Hp in Hv. cbn [opt_chain] in Hv.
  apply andb_prop in Hv. destruct Hv as [_ Hn].
  apply andb_prop in Hn. destruct Hn as [Hf Hl].
  destruct (firstname p) as [[| a fn] |] eqn:Ef; try discriminate Hf.
  destruct (lastname p) as [[| b ln] |] eqn:El; try discriminate Hl.
  exists p, (String a fn), (String b ln).
  split; [exact Hp |]. split; [exact Ef |]. split; [exact El |].
  split; discriminate.
Qed.

End Rows.

(** X1: the refactored pipeline (the second source file) emits a row for a
    record exactly when the record passes [isValidRow], which is the
    activity-and-name predicate of the specification: the rows are the
    projections of the passing records, one each and in order, so the row
    count is the number of passing records and at most the input length. *)
Theorem refactored_rows_match_predicate (clock : Z) (sourceData : list SourceDataType) :
  (forall r, Refactored.isValidRow r = active_and_named r) /\
  Forall2 (fun r row => Refactored.project clock r = Some row)
    (filter active_and_named sourceData) (Refactored.tableData clock sourceData) /\
  List.length (Refactored.tableData clock sourceData) =
    List.length (filter active_and_named sourceData) /\
  (List.length (Refactored.tableData clock sourceData) <= List.length sourceData)%nat.
Proof.
  split; [exact isValidRow_active_and_named |].
  rewrite <- (filter_ext _ _ isValidRow_active_and_named sourceData).
  pose proof (Refactored_rows_of_valid clock sourceData) as F.
  pose proof (Forall2_same_length _ _ _ F) as E.
  pose proof (filter_length_le Refactored.isValidRow sourceData).
  split; [exact F |]. split; lia.
Qed.

(** X2: the inline pipeline of table-script.tsx emits a row for a record
    exactly when the record is active (an employee not "Inaktiv", or, with
    no employee variant, an external with status "active"); names play no
    part.  The call returns normally, its rows are the projections of the
    active records in order, and there are as many rows as active
    records. *)
Theorem inline_rows_match_active (clock : Z) (sourceData : list SourceDataType) :
  exists rows,
    TableScript.tableData clock sourceData = Normal rows /\
    Forall2 (fun r row => TableScript.project clock r = Normal (Some row))
      (filter active sourceData) rows /\
    List.length rows = List.length (filter active sourceData) /\
    (List.length rows <= List.length sourceData)%nat /\
    (forall r, active r = false -> TableScript.project clock r = Normal None).
Proof.
  destruct (TableScript_rows_of_active clock sourceData) as [rows [E F]].
  exists rows.
  pose proof (Forall2_same_length _ _ _ F) as L.
  pose proof (filter_length_le active sourceData).
  repeat split; try assumption; try lia.
  intros r Hr. rewrite TableScript_project_row, Hr. reflexivity.
Qed.

(** The two-record input has two active records; a record with neither
    variant is not active and yields no row. *)
Lemma inline_rows_match_active_witness :
  (exists rows,
     TableScript.tableData mid_july_2025 staff = Normal rows /\
     List.length rows = 2%nat) /\
  TableScript.project mid_july_2025 {| employees := None; externals := None |} = Normal None.
Proof.
  destruct (inline_rows_match_active mid_july_2025 staff) as [rows [E [_ [L [_ D]]]]].
  split.
  - exists rows. split; [exact E | exact L].
  - apply D. reflexivity.
Defined.

(** X3: on input as the data model describes it (every record has at most
    one variant, and every active person has a non-empty first and last
    name) the two pipelines return the same rows. *)
Theorem pipelines_agree_on_well_formed_input (clock : Z) (sourceData : list SourceDataType) :
  Forall well_formed sourceData ->
  TableScript.tableData clock sourceData = Normal (Refactored.tableData clock sourceData).
Proof.
  intros H. apply pipelines_agree.
  eapply Forall_impl; [| exact H]. exact well_formed_filters_agree.
Qed.

Lemma pipelines_agree_on_well_formed_input_witness :
  TableScript.tableData mid_july_2025 staff =
    Normal (Refactored.tableData mid_july_2025 staff).
Proof.
  apply pipelines_agree_on_well_formed_input.
  repeat constructor; intros _; reflexivity.
Defined.

(** X4: the refactoring only removes rows.  For every input the rows of
    the refactored pipeline form an order-preserving subsequence of the rows
    of the inline pipeline: a record the refactored filter keeps is also
    kept inline, with the same row. *)
Theorem refactored_rows_within_inline_rows (clock : Z) (sourceData : list SourceDataType) :
  exists rows,
    TableScript.tableData clock sourceData = Normal rows /\
    subsequence (Refactored.tableData clock sourceData) rows.
Proof.
  rewrite TableScript_tableData_rows. eexists. split; [reflexivity |].
  unfold Refactored.tableData.
  induction sourceData as [| r l IH]; simpl; [constructor |].
  destruct (Refactored.isValidRow r) eqn:Hv.
  - rewrite (isValidRow_active r Hv).
    destruct (isValidRow_person r Hv) as [p Hp].
    simpl. rewrite Refactored_project_row, Hp. simpl.
    apply subsequence_keep. exact IH.
  - destruct (active r); [| exact IH].
    destruct (employees_or_externals r) as [p |]; simpl; [| exact IH].
    apply subsequence_skip. exact IH.
Qed.

(** X5: both pipelines work record by record.  On the empty input they
    return no rows, and the rows of a concatenated input are the rows of
    its first part followed by the rows of its second part. *)
Theorem tableData_concatenation (clock : Z) (first second : list SourceDataType) :
  TableScript.tableData clock [] = Normal [] /\
  Refactored.tableData clock [] = [] /\
  (exists rows1 rows2,
     TableScript.tableData clock first = Normal rows1 /\
     TableScript.tableData clock second = Normal rows2 /\
     TableScript.tableData clock (first ++ second)%list = Normal (rows1 ++ rows2)%list) /\
  Refactored.tableData clock (first ++ second)%list =
    (Refactored.tableData clock first ++ Refactored.tableData clock second)%list.
Proof.
  split; [reflexivity |]. split; [reflexivity |]. split.
  - rewrite !TableScript_tableData_rows. do 2 eexists.
    split; [reflexivity |]. split; [reflexivity |].
    rewrite map_app, filter_non_null_app. reflexivity.
  - unfold Refactored.tableData.
    rewrite filter_app, map_app, filter_non_null_app. reflexivity.
Qed.

(** X6: in the refactored pipeline the callback's [if (!person) return
    null] is never taken and the closing [filter(row !== null)] removes
    nothing: on the records that passed [isValidRow] the map callback
    returns a row every time, and these rows are the output. *)
Theorem refactored_callback_never_null (clock : Z) (sourceData : list SourceDataType) :
  map (Refactored.project clock) (filter Refactored.isValidRow sourceData) =
    map Some (Refactored.tableData clock sourceData) /\
  Forall (fun r => Refactored.project clock r <> None)
    (filter Refactored.isValidRow sourceData).
Proof.
  split; [apply Refactored_tableData_map |].
  apply Forall_forall. intros r Hin. apply filter_In in Hin. destruct Hin as [_ Hv].
  destruct (isValidRow_person r Hv) as [p Hp].
  rewrite Refactored_project_row, Hp. discriminate.
Qed.

(** X7: every row of the refactored pipeline is named by its record: the
    person cell is the record's first name, one space, and its last name,
    both present and non-empty (so never the text "undefined"). *)
Theorem refactored_rows_are_named (clock : Z) (sourceData : list SourceDataType) :
  Forall2
    (fun r row =>
       exists p fn ln,
         employees_or_externals r = Some p /\
         firstname p = Some fn /\ lastname p = Some ln /\
         fn <> "" /\ ln <> "" /\
         person row = fn ++ " " ++ ln)
    (filter Refactored.isValidRow sourceData) (Refactored.tableData clock sourceData).
Proof.
  unfold Refactored.tableData.
  induction sourceData as [| r l IH]; simpl; [constructor |].
  destruct (Refactored.isValidRow r) eqn:Hv; [| exact IH].
  destruct (valid_names r Hv) as [p [fn [ln [Hp [Hf [Hl [Nf Nl]]]]]]].
  simpl. rewrite Refactored_project_row, Hp. simpl.
  constructor; [| exact IH].
  exists p, fn, ln. repeat split; try assumption.
  cbn [row_for person]. rewrite Hf, Hl. reflexivity.
Qed.

(** X8: a record with only the external variant is kept by the status test
    exactly when [status] is the string "active".  Any other status, and an
    absent status too, drops it in both pipelines (unlike an employee, whom
    an absent status leaves active); with "active" the inline pipeline
    emits its row and the refactored filter decides on the names alone. *)
Theorem external_active_only_when_active
  (clock : Z) (r : SourceDataType) (x : External.t) :
  employees r = None ->
  externals r = Some x ->
  (Refactored.isInactiveExternal r = false <-> External.status x = Some "active") /\
  (External.status x = Some "active" ->
     TableScript.project clock r = Normal (Some (row_for clock r (AnExternal x))) /\
     Refactored.isValidRow r = Refactored.hasValidName (Some (AnExternal x))) /\
  (External.status x <> Some "active" ->
     TableScript.project clock r = Normal None /\ Refactored.isValidRow r = false).
Proof.
  intros He Hx.
  assert (Hi : Refactored.isInactiveExternal r =
               negb (JSString.strict_eq (External.status x) "active")).
  { unfold Refactored.isInactiveExternal. rewrite Hx. reflexivity. }
  assert (Hn : Refactored.isInactiveEmployee r = false).
  { unfold Refactored.isInactiveEmployee. rewrite He. reflexivity. }
  assert (Ha : active r = JSString.strict_eq (External.status x) "active").
  { unfold active. rewrite He, Hx. reflexivity. }
  assert (Hp : employees_or_externals r = Some (AnExternal x)).
  { unfold employees_or_externals. rewrite He, Hx. reflexivity. }
  split.
  - rewrite Hi, <- strict_eq_true.
    destruct (JSString.strict_eq (External.status x) "active"); simpl; split; congruence.
  - split.
    + intros Hs. apply strict_eq_true in Hs.
      rewrite TableScript_project_row, Ha, Hs, Hp.
      unfold Refactored.isValidRow. rewrite Hi, Hn, Hs, Hp. split; reflexivity.
    + intros Hs. apply strict_eq_false in Hs.
      rewrite TableScript_project_row, Ha, Hs.
      unfold Refactored.isValidRow. rewrite Hi, Hn, Hs. split; reflexivity.
Qed.

(** The external [smith] has status "active"; his record is dropped by the
    refactored filter for the missing first name only. *)
Lemma external_active_only_when_active_witness :
  TableScript.project mid_july_2025 unnamed_external =
    Normal (Some (row_for mid_july_2025 unnamed_external (AnExternal smith))) /\
  Refactored.isValidRow unnamed_external = false.
Proof.
  destruct (external_active_only_when_active mid_july_2025 unnamed_external smith
              eq_refl eq_refl) as [_ [H _]].
  destruct (H eq_refl) as [H1 H2].
  split; [exact H1 | rewrite H2; reflexivity].
Defined.

(** X9: the date reaches the net-earnings cell only.  Run at any two clock
    readings, each pipeline returns the same number of rows, and the rows
    agree pairwise in the person cell and in all five rate cells. *)
Theorem clock_affects_net_earnings_only (c1 c2 : Z) (sourceData : list SourceDataType) :
  (exists rows1 rows2,
     TableScript.tableData c1 sourceData = Normal rows1 /\
     TableScript.tableData c2 sourceData = Normal rows2 /\
     map rate_cells rows1 = map rate_cells rows2) /\
  map rate_cells (Refactored.tableData c1 sourceData) =
    map rate_cells (Refactored.tableData c2 sourceData).
Proof.
  split.
  - rewrite !TableScript_tableData_rows. do 2 eexists.
    split; [reflexivity |]. split; [reflexivity |].
    induction sourceData as [| r l IH]; simpl; [reflexivity |].
    destruct (active r); [| exact IH].
    destruct (employees_or_externals r) as [p |]; simpl; [| exact IH].
    f_equal. exact IH.
  - unfold Refactored.tableData.
    induction sourceData as [| r l IH]; simpl; [reflexivity |].
    destruct (Refactored.isValidRow r); [| exact IH].
    simpl. rewrite !Refactored_project_row.
    destruct (employees_or_externals r) as [p |]; simpl; [| exact IH].
    f_equal. exact IH.
Qed.

Section MonthCells.

Lemma find_first_named (name : string) (arr : list MonthUtilisation.t)
  (entry : MonthUtilisation.t) :
  first_named name arr entry ->
  find (fun m => JSString.strict_eq (MonthUtilisation.month m) name) arr = Some entry.
Proof.
  intros [before [after [-> [Hb He]]]].
  induction Hb as [| m before Hne _ IH]; simpl.
  - apply strict_eq_true in He. rewrite He. reflexivity.
  - apply strict_eq_false in Hne. rewrite Hne. exact IH.
Qed.

Lemma find_not_named (name : string) (arr : list MonthUtilisation.t) :
  Forall (fun m => MonthUtilisation.month m <> Some name) arr ->
  find (fun m => JSString.strict_eq (MonthUtilisation.month m) name) arr = None.
Proof.
  induction 1 as [| m arr Hne _ IH]; simpl.
  - reflexivity.
  - apply strict_eq_false in Hne. rewrite Hne. exact IH.
Qed.

Lemma month_rate_find (name : string) (r : SourceDataType) :
  month_rate name r =
    find (fun m => JSString.strict_eq (MonthUtilisation.month m) name) (last_three_months r)
      ?. MonthUtilisation.utilisationRate.
Proof.
  unfold month_rate, last_three_months.
  destruct (utilisation_of r ?. WorkforceUtilisation.lastThreeMonthsIndividually);
    reflexivity.
Qed.

End MonthCells.

Lemma month_rate_shows (name : string) (r : SourceDataType) :
  month_cell_shows name r (parseRate (month_rate name r)).
Proof.
  rewrite month_rate_find. split.
  - intros entry Hf. rewrite (find_first_named _ _ _ Hf). reflexivity.
  - intros Hn. rewrite (find_not_named _ _ Hn). reflexivity.
Qed.

(** X10: the May, June and July cells look their month up by its exact
    name in [lastThreeMonthsIndividually] and take the first entry so named:
    the cell is [parseRate] of that entry's rate, whatever comes after it,
    and "0%" when no entry has the name or the list is missing.  This holds
    for every row either pipeline emits. *)
Theorem month_cells_take_first_entry
  (clock : Z) (r : SourceDataType) (row : TableDataType) :
  TableScript.project clock r = Normal (Some row) \/
  Refactored.project clock r = Some row ->
  month_cell_shows "May" r (may row) /\
  month_cell_shows "June" r (june row) /\
  month_cell_shows "July" r (july row).
Proof.
  intros H. destruct (emitted_row clock r row H) as [p ->].
  cbn [row_for may june july].
  repeat split; apply month_rate_shows.
Qed.

(** The external [erika] lists June, then May twice: the May cell shows the
    first May entry, "61.0%", and July, which is not listed, shows "0%". *)
Lemma month_cells_take_first_entry_witness :
  may (row_for mid_july_2025 erika_record (AnExternal erika)) = "61.0%" /\
  july (row_for mid_july_2025 erika_record (AnExternal erika)) = "0%".
Proof.
  destruct (month_cells_take_first_entry mid_july_2025 erika_record
              (row_for mid_july_2025 erika_record (AnExternal erika))
              (or_intror eq_refl)) as [[Hm _] [_ [_ Hj]]].
  split.
  - transitivity (parseRate (Some "0.61")); [| vm_compute; reflexivity].
    apply (Hm {| MonthUtilisation.month := Some "May";
                 MonthUtilisation.utilisationRate := Some "0.61" |}).
    exists [ {| MonthUtilisation.month := Some "June";
                MonthUtilisation.utilisationRate := Some "0.4" |} ],
           [ {| MonthUtilisation.month := Some "May";
                MonthUtilisation.utilisationRate := Some "0.99" |} ].
    split; [reflexivity |]. split; [| reflexivity].
    constructor; [discriminate | constructor].
  - apply Hj. repeat constructor; discriminate.
Defined.

(** ** Cells under the column schema *)

Section Cells.





End Cells.



(** ** The previous-month key as a name of the month *)

Section KeyNames.
Import JSDate.

Lemma digit_char_inj (a b : Z) :
  0 <= a <= 9 -> 0 <= b <= 9 ->
  JSString.digit_char a = JSString.digit_char b -> a = b.
Proof.
  intros Ha Hb E.
  pose proof (digit_value_digit_char a Ha) as Va.
  rewrite E, (digit_value_digit_char b Hb) in Va. congruence.
Qed.

Lemma four_digits_inj (a b : Z) :
  1000 <= a <= 9999 -> 1000 <= b <= 9999 ->
  four_digits a = four_digits b -> a = b.
Proof.
  intros Ha Hb E. unfold four_digits in E.
  injection E as E3 E2 E1 E0.
  apply digit_char_inj in E3, E2, E1, E0; Z.div_mod_to_equations; lia.
Qed.

Lemma two_digits_inj (a b : Z) :
  1 <= a <= 12 -> 1 <= b <= 12 ->
  two_digits a = two_digits b -> a = b.
Proof.
  intros Ha Hb E. unfold two_digits in E.
  injection E as E1 E0.
  apply digit_char_inj in E1, E0; Z.div_mod_to_equations; lia.
Qed.

(** The key of a clock reading in a year from 1001 to 9999, by fields. *)
Lemma prev_month_key_fields (clock : Z) :
  let y := YearFromTime clock in
  let m := MonthFromTime clock in
  1001 <= y <= 9999 ->
  getPrevMonthKey clock =
    four_digits (y + (m - 1) / 12) ++ "-" ++ two_digits ((m - 1) mod 12 + 1).
Proof.
  intros y m Hy.
  pose proof (MonthFromTime_range clock) as Hm. fold m in Hm.
  destruct (previous_month_carry m Hm) as [Hq Hr].
  assert (Hm' : 0 <= (m - 1) mod 12 <= 11) by (Z.div_mod_to_equations; lia).
  pose proof (month_start_range (y + (m - 1) / 12) ((m - 1) mod 12) Hm') as Hs.
  pose proof (DayFromYear_linear (y + (m - 1) / 12)) as Hl.
  assert (Hc : - 1 <= (m - 1) / 12 <= 0) by (destruct (m =? 0); lia).
  rewrite (getPrevMonthKey_carry clock); fold y m.
  - rewrite of_Z_four_digits, padStart_two_digits by lia. reflexivity.
  - lia.
  - unfold MakeDate, MakeDay, msPerDay. lia.
Qed.

End KeyNames.

(** X12: the previous-month key names the calendar month.  For clock
    readings in years 1001 to 9999, two readings get the same key exactly
    when they lie in the same month of the same year: the key is constant
    within a month and no two months share a key. *)
Theorem prev_month_key_identifies_month (c1 c2 : Z) :
  1001 <= JSDate.YearFromTime c1 <= 9999 ->
  1001 <= JSDate.YearFromTime c2 <= 9999 ->
  (getPrevMonthKey c1 = getPrevMonthKey c2 <->
   JSDate.YearFromTime c1 = JSDate.YearFromTime c2 /\
   JSDate.MonthFromTime c1 = JSDate.MonthFromTime c2).
Proof.
  intros H1 H2. split.
  - rewrite (prev_month_key_fields c1 H1), (prev_month_key_fields c2 H2).
    pose proof (MonthFromTime_range c1) as M1.
    pose proof (MonthFromTime_range c2) as M2.
    destruct (previous_month_carry _ M1) as [Q1 R1].
    destruct (previous_month_carry _ M2) as [Q2 R2].
    set (y1 := JSDate.YearFromTime c1) in *. set (y2 := JSDate.YearFromTime c2) in *.
    set (m1 := JSDate.MonthFromTime c1) in *. set (m2 := JSDate.MonthFromTime c2) in *.
    assert (B1 : - 1 <= (m1 - 1) / 12 <= 0) by (destruct (m1 =? 0); lia).
    assert (B2 : - 1 <= (m2 - 1) / 12 <= 0) by (destruct (m2 =? 0); lia).
    assert (A1 : 0 <= (m1 - 1) mod 12 <= 11)
      by (pose proof (Z.mod_pos_bound (m1 - 1) 12); lia).
    assert (A2 : 0 <= (m2 - 1) mod 12 <= 11)
      by (pose proof (Z.mod_pos_bound (m2 - 1) 12); lia).
    intros E. unfold four_digits in E. cbn [append] in E.
    injection E as E3 E2 E1 E0 Em1 Em0.
    assert (Ey : four_digits (y1 + (m1 - 1) / 12) = four_digits (y2 + (m2 - 1) / 12)).
    { unfold four_digits. rewrite E3, E2, E1, E0. reflexivity. }
    assert (Em : two_digits ((m1 - 1) mod 12 + 1) = two_digits ((m2 - 1) mod 12 + 1)).
    { unfold two_digits. rewrite Em1, Em0. reflexivity. }
    apply four_digits_inj in Ey; try lia.
    apply two_digits_inj in Em; try lia.
    destruct (Z.eqb_spec m1 0), (Z.eqb_spec m2 0); lia.
  - intros [Ey Em]. apply getPrevMonthKey_same_month; assumption.
Qed.

(** 15 and 16 July 2025 share the key; July 2025 and January 2026 do not. *)
Lemma prev_month_key_identifies_month_witness :
  getPrevMonthKey mid_july_2025 = getPrevMonthKey (mid_july_2025 + JSDate.msPerDay) /\
  getPrevMonthKey mid_july_2025 <> getPrevMonthKey january_2026.
Proof.
  split.
  - apply (prev_month_key_identifies_month mid_july_2025 (mid_july_2025 + JSDate.msPerDay));
      vm_compute; split; (reflexivity || discriminate).
  - intros E.
    apply (prev_month_key_identifies_month mid_july_2025 january_2026) in E;
      [| vm_compute; split; discriminate | vm_compute; split; discriminate].
    destruct E as [E _]. vm_compute in E. discriminate E.
Defined.

(** ** When a cell shows NaN *)

Section NotANumber.
Import JSString JSNumber.

(** The rounding of [SpecFloat] gives [NaN] only for a negative mantissa. *)
Lemma shr_1_nonneg (mrs : shr_record) : 0 <= shr_m mrs -> 0 <= shr_m (shr_1 mrs).
Proof.
  destruct mrs as [m r s]. destruct m as [| [p | p |] | p]; simpl; lia.
Qed.

Lemma iter_pos_keeps {A : Type} (P : A -> Prop) (f : A -> A) :
  (forall x, P x -> P (f x)) -> forall p x, P x -> P (iter_pos f p x).
Proof.
  intros Hf. induction p as [p IH | p IH |]; intros x Hx; simpl; auto.
Qed.

Lemma shr_nonneg (mrs : shr_record) (e n : Z) :
  0 <= shr_m mrs -> 0 <= shr_m (fst (shr mrs e n)).
Proof.
  intros H. unfold shr. destruct n as [| p | p]; simpl; try assumption.
  apply (iter_pos_keeps (fun r => 0 <= shr_m r)); [exact shr_1_nonneg | assumption].
Qed.

Lemma shr_fexp_nonneg (m e : Z) (l : location) :
  0 <= m -> 0 <= shr_m (fst (shr_fexp prec emax m e l)).
Proof.
  intros H. unfold shr_fexp. apply shr_nonneg.
  destruct l as [| []]; simpl; assumption.
Qed.

Lemma round_nearest_even_nonneg (m : Z) (l : location) :
  0 <= m -> 0 <= round_nearest_even m l.
Proof.
  intros H. unfold round_nearest_even.
  destruct l as [| []]; try lia. destruct (Z.even m); lia.
Qed.

Lemma binary_round_aux_not_NaN (sx : bool) (mx ex : Z) (lx : location) :
  0 <= mx -> binary_round_aux prec emax sx mx ex lx <> NaN.
Proof.
  intros H. unfold binary_round_aux.
  pose proof (shr_fexp_nonneg mx ex lx H) as H1.
  destruct (shr_fexp prec emax mx ex lx) as [mrs' e']. cbn [fst] in H1.
  pose proof (shr_fexp_nonneg _ e' loc_Exact
                (round_nearest_even_nonneg _ (loc_of_shr_record mrs') H1)) as H2.
  destruct (shr_fexp prec emax _ e' loc_Exact) as [mrs'' e'']. cbn [fst] in H2.
  destruct (shr_m mrs'') as [| p | p]; try discriminate; [| lia].
  destruct (e'' <=? emax - prec); discriminate.
Qed.

Lemma binary_normalize_not_NaN (m e : Z) (szero : bool) :
  binary_normalize prec emax m e szero <> NaN.
Proof.
  unfold binary_normalize, binary_round.
  destruct m as [| p | p]; try discriminate;
    destruct (shl_align _ _ _) as [mz ez]; apply binary_round_aux_not_NaN; lia.
Qed.

Lemma of_ratio_not_NaN (sign : bool) (num den : positive) :
  of_ratio sign num den <> NaN.
Proof.
  unfold of_ratio, SFdiv_core_binary.
  set (m' := match _ - _ - _ with Z.pos _ => _ | Z0 => _ | Z.neg _ => _ end).
  assert (Hm : 0 <= m').
  { unfold m'. destruct (_ - _ - _); try lia. apply Z.shiftl_nonneg. lia. }
  pose proof (Z.div_pos m' (Z.pos den) Hm ltac:(lia)) as Hq.
  unfold Z.div in Hq.
  destruct (Z.div_eucl m' (Z.pos den)) as [q r]. cbn [fst] in Hq.
  apply binary_round_aux_not_NaN. exact Hq.
Qed.

Lemma of_decimal_not_NaN (sign : bool) (m e : Z) : of_decimal sign m e <> NaN.
Proof.
  unfold of_decimal. destruct m as [| p | p]; try discriminate.
  destruct (0 <=? e); [apply binary_normalize_not_NaN | apply of_ratio_not_NaN].
Qed.

Lemma mul_100_not_NaN (x : Number) : x <> NaN -> mul x (of_Z 100) <> NaN.
Proof.
  intros Hx.
  assert (E : of_Z 100 = S754_finite false 7036874417766400 (-46))
    by (vm_compute; reflexivity).
  rewrite E. unfold mul.
  destruct x as [s | s | | s m e]; try discriminate; [contradiction |].
  cbn [SFmul]. apply binary_round_aux_not_NaN. lia.
Qed.

(** What the printed forms of a number other than [NaN] start with: a
    digit, a minus sign or the "I" of "Infinity", never "N". *)
Lemma digit_char_not_N (d : Z) : 0 <= d <= 9 -> digit_char d <> "N"%char.
Proof.
  intros H.
  assert (C : d = 0 \/ d = 1 \/ d = 2 \/ d = 3 \/ d = 4 \/ d = 5 \/ d = 6
              \/ d = 7 \/ d = 8 \/ d = 9) by lia.
  enumerate d C discriminate.
Qed.

Lemma of_nonneg_not_N (n : Z) (tail rest : string) :
  0 <= n -> of_nonneg n ++ tail <> String "N" rest.
Proof.
  intros Hn E. destruct (of_nonneg_head n Hn) as [d [r [Hd Ed]]].
  rewrite Ed in E. cbn [append] in E. injection E as E _.
  exact (digit_char_not_N d Hd E).
Qed.

Lemma scale10_positive (num den q : Z) :
  0 < num -> 0 < den -> 0 < fst (scale10 num den q) /\ 0 < snd (scale10 num den q).
Proof.
  intros Hn Hd. unfold scale10.
  destruct (Z.leb_spec 0 q); cbn [fst snd]; split; try assumption;
    apply Z.mul_pos_pos; try assumption; apply Z.pow_pos_nonneg; lia.
Qed.

Lemma shortest_nonneg (fuel : nat) :
  forall x num den n0 k,
    0 < num -> 0 < den -> 0 <= fst (shortest fuel x num den n0 k).
Proof.
  induction fuel as [| fuel IH]; intros x num den n0 k Hn Hd; cbn [shortest];
    destruct (scale10_positive num den (n0 - k) Hn Hd) as [Hvn Hvd];
    destruct (scale10 num den (n0 - k)) as [vn vd]; cbn [fst snd] in Hvn, Hvd;
    pose proof (Z.div_pos vn vd ltac:(lia) Hvd) as Hlo.
  - cbn [fst]. destruct (_ <=? vd); lia.
  - destruct (roundtrips x (vn / vd) (n0 - k)), (roundtrips x (vn / vd + 1) (n0 - k));
      cbn [fst]; try lia; [destruct (_ <=? vd); lia | apply IH; assumption].
Qed.

Lemma strip_zeros_nonneg (fuel : nat) :
  forall c q, 0 <= c -> 0 <= fst (strip_zeros fuel c q).
Proof.
  induction fuel as [| fuel IH]; intros c q Hc; cbn [strip_zeros]; [exact Hc |].
  destruct ((0 <? c) && (c mod 10 =? 0)); [| exact Hc].
  apply IH. apply Z.div_pos; lia.
Qed.

Lemma layout_not_N (c n : Z) (rest : string) :
  0 <= c -> layout (of_nonneg c) n <> String "N" rest.
Proof.
  intros Hc. destruct (of_nonneg_head c Hc) as [d [r [Hd Ed]]].
  rewrite Ed. unfold layout.
  assert (D : forall t u, String (digit_char d) t <> String "N" u).
  { intros t u E. injection E as E _. exact (digit_char_not_N d Hd E). }
  destruct (_ && _); [apply D |].
  destruct (Z.ltb_spec 0 n) as [Hn | Hn]; cbn [andb].
  - destruct (n <=? 21).
    + destruct (Z.to_nat n) as [| k] eqn:Ek; [lia |]. apply D.
    + destruct ((-6 <? n) && (n <=? 0)); [discriminate |].
      destruct r; apply D.
  - destruct ((-6 <? n) && (n <=? 0)); [discriminate |].
    destruct r; apply D.
Qed.

Lemma toString_pos_not_N (m : positive) (e : Z) (rest : string) :
  toString_pos m e <> String "N" rest.
Proof.
  unfold toString_pos.
  destruct (ratio_of_positive m e) as [Hn Hd].
  destruct (ratio_of m e) as [num den]. cbn [fst snd] in Hn, Hd.
  pose proof (shortest_nonneg 16 (S754_finite false m e) num den (magnitude num den) 1 Hn Hd)
    as Hs.
  destruct (shortest 16 _ num den _ 1) as [c0 q0]. cbn [fst] in Hs.
  pose proof (strip_zeros_nonneg 400 c0 q0 Hs) as Hz.
  destruct (strip_zeros 400 c0 q0) as [c q]. cbn [fst] in Hz.
  apply layout_not_N. exact Hz.
Qed.

Lemma toString_not_N (x : Number) (rest : string) :
  x <> NaN -> toString x <> String "N" rest.
Proof.
  intros Hx. destruct x as [s | s | | s m e]; cbn [toString].
  - discriminate.
  - destruct s; discriminate.
  - contradiction.
  - destruct s; [discriminate |]. cbn [append]. apply toString_pos_not_N.
Qed.

Lemma toFixed_not_N (x : Number) (rest : string) :
  x <> NaN -> toFixed 1 x <> String "N" rest.
Proof.
  intros Hx. destruct x as [s | s | | s m e]; cbn [toFixed].
  - discriminate.
  - destruct s; discriminate.
  - contradiction.
  - destruct (ratio_of_positive m e) as [Hn Hd].
    destruct (ratio_of m e) as [num den]. cbn [fst snd] in Hn, Hd.
    destruct s; [discriminate |]. cbn [append].
    destruct (_ <=? num); [apply toString_pos_not_N |].
    destruct (nearest_fixed_one num den Hn Hd) as [H0 _].
    rewrite fixed_digits_one by exact H0. apply of_nonneg_not_N.
    apply Z.div_pos; lia.
Qed.

Lemma append_head_N (s tail rest : string) :
  (forall r, s <> String "N" r) -> tail <> String "N" rest ->
  s ++ tail <> String "N" rest.
Proof.
  intros Hs Ht E. destruct s as [| c s]; cbn [append] in E; [exact (Ht E) |].
  injection E as -> _. exact (Hs s eq_refl).
Qed.

End NotANumber.

Section LeadingCharacter.
Import JSString JSNumber.

Lemma read_digits_count (s : string) :
  forall acc count, (count <= snd (fst (read_digits acc count s)))%nat.
Proof.
  induction s as [| c s IH]; intros acc count; cbn [read_digits].
  - cbn. lia.
  - destruct (digit_value c) as [d |]; [| cbn; lia].
    specialize (IH (10 * acc + d) (S count)). lia.
Qed.

Lemma digit_value_cases (c : ascii) (v : Z) :
  digit_value c = Some v ->
  In c ["0"; "1"; "2"; "3"; "4"; "5"; "6"; "7"; "8"; "9"]%char.
Proof.
  destruct c as [[] [] [] [] [] [] [] []]; intros H; try discriminate H;
    cbn [In]; tauto.
Qed.

Lemma is_letter_cases (c : ascii) :
  is_letter c = true ->
  In c ["A"; "B"; "C"; "D"; "E"; "F"; "G"; "H"; "I"; "J"; "K"; "L"; "M";
        "N"; "O"; "P"; "Q"; "R"; "S"; "T"; "U"; "V"; "W"; "X"; "Y"; "Z";
        "a"; "b"; "c"; "d"; "e"; "f"; "g"; "h"; "i"; "j"; "k"; "l"; "m";
        "n"; "o"; "p"; "q"; "r"; "s"; "t"; "u"; "v"; "w"; "x"; "y"; "z"]%char.
Proof.
  destruct c as [[] [] [] [] [] [] [] []]; intros H; try discriminate H;
    cbn [In]; tauto.
Qed.

(** A string that starts with a letter other than "I" has no numeric
    prefix. *)
Lemma parseFloat_leading_letter (c : ascii) (rest : string) :
  is_letter c = true -> c <> "I"%char -> parseFloat (String c rest) = NaN.
Proof.
  intros H Hi. apply is_letter_cases in H. cbn [In] in H.
  repeat (destruct H as [H | H];
          [subst c; try (exfalso; apply Hi; reflexivity);
           destruct rest as [| b [| b' r]]; reflexivity |]).
  contradiction.
Qed.

(** A string that starts with a decimal digit parses to a number. *)
Lemma parseFloat_leading_digit (d : ascii) (v : Z) (rest : string) :
  digit_value d = Some v -> parseFloat (String d rest) <> NaN.
Proof.
  intros Hv.
  assert (T : trimStart (String d rest) = String d rest /\
              String.prefix "Infinity" (String d rest) = false /\
              match String d rest with
              | String "+" r => (false, r)
              | String "-" r => (true, r)
              | _ => (false, String d rest)
              end = (false, String d rest)).
  { apply digit_value_cases in Hv. cbn [In] in Hv.
    repeat (destruct Hv as [Hv | Hv];
            [subst d; destruct rest as [| b [| b' r]]; repeat split |]).
    contradiction. }
  destruct T as [T [P S]].
  unfold parseFloat. rewrite T, S, P.
  pose proof (read_digits_count rest (10 * 0 + v) 1) as C.
  cbn [read_digits]. rewrite Hv.
  destruct (read_digits (10 * 0 + v) 1 rest) as [[m1 n1] r1]. cbn [fst snd] in C.
  assert (N : forall m2 n2 r2,
             match (n1 + n2)%nat with
             | O => NaN
             | S _ => of_decimal false m2 (read_exponent r2 - Z.of_nat n2)
             end <> NaN).
  { intros m2 n2 r2. destruct (n1 + n2)%nat eqn:E; [lia | apply of_decimal_not_NaN]. }
  destruct r1 as [| a r1']; [apply N |].
  destruct (Ascii.eqb_spec a ".") as [-> | Hne].
  - destruct (read_digits m1 0 r1') as [[m2 n2] r2]. apply N.
  - destruct a as [[] [] [] [] [] [] [] []]; try apply N. contradiction.
Qed.

Lemma find_Some_first_match (key : string) (arr : list MonthEarnings.t)
  (entry : MonthEarnings.t) :
  find (fun e => JSString.strict_eq (MonthEarnings.month e) key) arr = Some entry ->
  first_match key arr entry.
Proof.
  induction arr as [| e arr IH]; simpl; [discriminate |].
  destruct (JSString.strict_eq (MonthEarnings.month e) key) eqn:He.
  - intros [= ->]. exists [], arr. split; [reflexivity |].
    split; [constructor | apply strict_eq_true; exact He].
  - intros H. destruct (IH H) as [before [after [-> [Hb Hm]]]].
    exists (e :: before), after. split; [reflexivity |].
    split; [constructor; [apply strict_eq_false; exact He | exact Hb] | exact Hm].
Qed.

End LeadingCharacter.

(** X13: a rate cell shows "NaN%" exactly when its rate string is present,
    non-empty and does not parse as a number; a rate that parses is never
    shown as "NaN%", whatever its value (zero, huge or infinite). *)
Theorem parseRate_NaN_iff_unparseable (v : string) :
  v <> "" ->
  (parseRate (Some v) = "NaN%" <-> JSNumber.parseFloat v = JSNumber.NaN).
Proof.
  intros Hv.
  assert (E : parseRate (Some v) =
              JSNumber.toFixed 1 (JSNumber.mul (JSNumber.parseFloat v) (JSNumber.of_Z 100))
                ++ "%").
  { destruct v as [| c v']; [contradiction | reflexivity]. }
  rewrite E. split.
  - intros H.
    destruct (JSNumber.parseFloat v) as [s | s | | s m e] eqn:P; try reflexivity;
      exfalso; revert H; apply append_head_N; try discriminate;
      intros r; apply toFixed_not_N; apply mul_100_not_NaN; discriminate.
  - intros ->. reflexivity.
Qed.

Lemma parseRate_NaN_iff_unparseable_witness :
  parseRate (Some "n/a") = "NaN%" /\ JSNumber.parseFloat "0.5" <> JSNumber.NaN.
Proof.
  split.
  - apply (parseRate_NaN_iff_unparseable "n/a"); [discriminate | reflexivity].
  - intros H.
    apply (parseRate_NaN_iff_unparseable "0.5" ltac:(discriminate)) in H.
    vm_compute in H. discriminate H.
Defined.

(** X14: the net-earnings cell shows "NaN €" exactly when the employee has
    an entry for the previous month (the first one counts) whose [costs] is
    present and does not parse as a number.  Without an entry or without
    [costs] it shows "0 €"; with costs that parse it never shows "NaN €". *)
Theorem net_earnings_NaN_iff_unparseable (clock : Z) (r : SourceDataType) :
  getNetEarningsPrevMonth clock r = "NaN €" <->
  exists entry c,
    first_match (getPrevMonthKey clock) (earnings r) entry /\
    MonthEarnings.costs entry = Some c /\
    JSNumber.parseFloat c = JSNumber.NaN.
Proof.
  rewrite getNetEarningsPrevMonth_find. split.
  - destruct (find _ (earnings r)) as [entry |] eqn:F.
    + apply find_Some_first_match in F. cbn [opt_chain].
      destruct (MonthEarnings.costs entry) as [c |] eqn:C.
      * intros H. exists entry, c. repeat split; try assumption.
        destruct (JSNumber.parseFloat c) as [s | s | | s m e] eqn:P; try reflexivity;
          exfalso; revert H; apply append_head_N; try discriminate;
          intros t; apply toString_not_N; discriminate.
      * rewrite toString_zero. discriminate.
    + cbn [opt_chain]. rewrite toString_zero. discriminate.
  - intros [entry [c [F [C P]]]].
    rewrite (find_first_match _ _ _ F). cbn [opt_chain]. rewrite C, P. reflexivity.
Qed.

(** On 15 July 2025 the record [garbled] has a June 2025 entry with costs
    "n/a". *)
Lemma net_earnings_NaN_iff_unparseable_witness :
  getNetEarningsPrevMonth mid_july_2025 garbled = "NaN €".
Proof.
  apply (net_earnings_NaN_iff_unparseable mid_july_2025 garbled).
  exists {| MonthEarnings.month := Some "2025-06"; MonthEarnings.costs := Some "n/a" |}, "n/a".
  split; [| split; reflexivity].
  exists [], []. split; [reflexivity |]. split; [constructor |].
  vm_compute. reflexivity.
Defined.

(** X15: what the first character of a rate string decides.  A rate that
    starts with a decimal digit always parses (digits after it, a fraction,
    an exponent or trailing text notwithstanding) and is never shown as
    "NaN%"; a rate that starts with an ASCII letter other than "I" never
    parses and is always shown as "NaN%". *)
Theorem parseRate_leading_character (c : ascii) (rest : string) :
  (forall v, JSNumber.digit_value c = Some v ->
             JSNumber.parseFloat (String c rest) <> JSNumber.NaN /\
             parseRate (Some (String c rest)) <> "NaN%") /\
  (is_letter c = true -> c <> "I"%char ->
   parseRate (Some (String c rest)) = "NaN%").
Proof.
  split.
  - intros v Hv.
    pose proof (parseFloat_leading_digit c v rest Hv) as P.
    split; [exact P |].
    unfold parseRate. apply append_head_N; [| discriminate].
    intros r. apply toFixed_not_N. apply mul_100_not_NaN. exact P.
  - intros Hl Hi. unfold parseRate.
    rewrite (parseFloat_leading_letter c rest Hl Hi). reflexivity.
Qed.

Lemma parseRate_leading_character_witness :
  parseRate (Some "7 percent") <> "NaN%" /\ parseRate (Some "seven") = "NaN%".
Proof.
  split.
  - destruct (parseRate_leading_character "7" " percent") as [H _].
    destruct (H 7 eq_refl) as [_ H']. exact H'.
  - destruct (parseRate_leading_character "s" "even") as [_ H].
    apply H; [reflexivity | discriminate].
Defined.

(** * The pipelines on unchecked data *)

Section Unchecked.
Variable clock : Z.

Lemma Array_find_months (name : string) (arr : list MonthUtilisation.t) :
  Array_find (Raw.month_is name) (map Some arr) =
    Normal (option_map Some
              (find (fun m => JSString.strict_eq (MonthUtilisation.month m) name) arr)).
Proof.
  induction arr as [| m arr IH]; simpl; [reflexivity |].
  destruct (JSString.strict_eq (MonthUtilisation.month m) name); [reflexivity | exact IH].
Qed.

Lemma Array_find_earnings (key : string) (arr : list MonthEarnings.t) :
  Array_find (Raw.earnings_month_is key) (map Some arr) =
    Normal (option_map Some
              (find (fun e => JSString.strict_eq (MonthEarnings.month e) key) arr)).
Proof.
  induction arr as [| e arr IH]; simpl; [reflexivity |].
  destruct (JSString.strict_eq (MonthEarnings.month e) key); [reflexivity | exact IH].
Qed.

(** On a record without [null]s the earnings lookup returns normally, with
    the value of the typed embedding. *)
Lemma raw_getNetEarningsPrevMonth (r : SourceDataType) :
  Raw.getNetEarningsPrevMonth clock (raw_record r) =
    Normal (getNetEarningsPrevMonth clock r).
Proof.
  unfold Raw.getNetEarningsPrevMonth, getNetEarningsPrevMonth.
  destruct r as [[[fn ln sa wu [[[arr |]] |]] |] x];
    cbn [raw_record Raw.employees employees option_map opt_chain raw_employee
         Raw.Employee.costsByMonth Employee.costsByMonth raw_costs
         Raw.CostsByMonth.potentialEarningsByMonth CostsByMonth.potentialEarningsByMonth
         map Array_find bind];
    try reflexivity.
  rewrite Array_find_earnings. cbn [bind].
  destruct (find _ arr) as [entry |]; reflexivity.
Qed.

Lemma raw_month_rate_inline (name : string) (u : option WorkforceUtilisation.t) :
  (found <- Array_find (Raw.month_is name)
              match option_map raw_utilisation u
                      ?. Raw.WorkforceUtilisation.lastThreeMonthsIndividually with
              | Some arr => arr
              | None => []
              end ;;
   Normal (parseRate (found ?. (fun m => m ?. MonthUtilisation.utilisationRate)))) =
  Normal (parseRate
            (u ?. WorkforceUtilisation.lastThreeMonthsIndividually
               ?. find (fun m => JSString.strict_eq (MonthUtilisation.month m) name)
               ?. MonthUtilisation.utilisationRate)).
Proof.
  destruct u as [[a b [arr |]] |]; try reflexivity.
  cbn [option_map opt_chain raw_utilisation
       Raw.WorkforceUtilisation.lastThreeMonthsIndividually
       WorkforceUtilisation.lastThreeMonthsIndividually].
  rewrite Array_find_months. cbn [bind].
  destruct (find _ arr) as [m |]; reflexivity.
Qed.

Lemma raw_month_rate_refactored (name : string) (u : option WorkforceUtilisation.t) :
  (found <- match option_map raw_utilisation u
                    ?. Raw.WorkforceUtilisation.lastThreeMonthsIndividually with
            | Some arr => Array_find (Raw.month_is name) arr
            | None => Normal None
            end ;;
   Normal (parseRate (found ?. (fun m => m ?. MonthUtilisation.utilisationRate)))) =
  Normal (parseRate
            (u ?. WorkforceUtilisation.lastThreeMonthsIndividually
               ?. find (fun m => JSString.strict_eq (MonthUtilisation.month m) name)
               ?. MonthUtilisation.utilisationRate)).
Proof.
  destruct u as [[a b [arr |]] |]; try reflexivity.
  cbn [option_map opt_chain raw_utilisation
       Raw.WorkforceUtilisation.lastThreeMonthsIndividually
       WorkforceUtilisation.lastThreeMonthsIndividually].
  rewrite Array_find_months. cbn [bind].
  destruct (find _ arr) as [m |]; reflexivity.
Qed.

Lemma raw_rates (u : option WorkforceUtilisation.t) :
  option_map raw_utilisation u ?. Raw.WorkforceUtilisation.utilisationRateLastTwelveMonths =
    u ?. WorkforceUtilisation.utilisationRateLastTwelveMonths /\
  option_map raw_utilisation u ?. Raw.WorkforceUtilisation.utilisationRateYearToDate =
    u ?. WorkforceUtilisation.utilisationRateYearToDate.
Proof. destruct u; split; reflexivity. Qed.

(** On a record without [null]s the inline callback behaves as in the typed
    embedding. *)
Lemma raw_project_inline (r : SourceDataType) :
  Raw.project_inline clock (Some (raw_record r)) = TableScript.project clock r.
Proof.
  rewrite TableScript_project_row.
  unfold Raw.project_inline, active, row_for, month_rate, utilisation_of,
    employees_or_externals.
  destruct r as [[e |] [x |]];
    cbn [raw_record Raw.employees Raw.externals employees externals present option_map
         opt_chain raw_employee raw_external
         Raw.Employee.statusAggregation Raw.External.status
         Raw.workforceUtilisation Raw.Employee.workforceUtilisation
         Raw.External.workforceUtilisation workforceUtilisation
         Raw.firstname Raw.lastname Raw.Employee.firstname Raw.Employee.lastname
         Raw.External.firstname Raw.External.lastname firstname lastname bind].
  - destruct (JSString.strict_eq _ "Inaktiv"); cbn [negb]; [reflexivity |].
    rewrite !raw_month_rate_inline. cbn [bind].
    rewrite (raw_getNetEarningsPrevMonth {| employees := Some e; externals := Some x |}).
    cbn [bind].
    destruct (raw_rates (Employee.workforceUtilisation e)) as [-> ->]. reflexivity.
  - destruct (JSString.strict_eq _ "Inaktiv"); cbn [negb]; [reflexivity |].
    rewrite !raw_month_rate_inline. cbn [bind].
    rewrite (raw_getNetEarningsPrevMonth {| employees := Some e; externals := None |}).
    cbn [bind].
    destruct (raw_rates (Employee.workforceUtilisation e)) as [-> ->]. reflexivity.
  - destruct (JSString.strict_eq _ "active"); cbn [negb]; [| reflexivity].
    rewrite !raw_month_rate_inline. cbn [bind].
    rewrite (raw_getNetEarningsPrevMonth {| employees := None; externals := Some x |}).
    cbn [bind].
    destruct (raw_rates (External.workforceUtilisation x)) as [-> ->]. reflexivity.
  - reflexivity.
Qed.

Lemma raw_isValidRow (r : SourceDataType) :
  Raw.isValidRow (Some (raw_record r)) = Normal (Refactored.isValidRow r).
Proof.
  destruct r as [[e |] [x |]]; reflexivity.
Qed.

Lemma raw_project_refactored (r : SourceDataType) :
  Raw.project_refactored clock (Some (raw_record r)) =
    Normal (Refactored.project clock r).
Proof.
  rewrite Refactored_project_row.
  unfold Raw.project_refactored, row_for, month_rate, utilisation_of,
    employees_or_externals, Raw.employees_or_externals.
  destruct r as [[e |] [x |]];
    cbn [raw_record Raw.employees Raw.externals employees externals option_map
         opt_chain raw_employee raw_external
         Raw.workforceUtilisation Raw.Employee.workforceUtilisation
         Raw.External.workforceUtilisation workforceUtilisation
         Raw.firstname Raw.lastname Raw.Employee.firstname Raw.Employee.lastname
         Raw.External.firstname Raw.External.lastname firstname lastname bind];
    try reflexivity.
  - rewrite !raw_month_rate_refactored. cbn [bind].
    rewrite (raw_getNetEarningsPrevMonth {| employees := Some e; externals := Some x |}).
    cbn [bind].
    destruct (raw_rates (Employee.workforceUtilisation e)) as [-> ->]. reflexivity.
  - rewrite !raw_month_rate_refactored. cbn [bind].
    rewrite (raw_getNetEarningsPrevMonth {| employees := Some e; externals := None |}).
    cbn [bind].
    destruct (raw_rates (Employee.workforceUtilisation e)) as [-> ->]. reflexivity.
  - rewrite !raw_month_rate_refactored. cbn [bind].
    rewrite (raw_getNetEarningsPrevMonth {| employees := None; externals := Some x |}).
    cbn [bind].
    destruct (raw_rates (External.workforceUtilisation x)) as [-> ->]. reflexivity.
Qed.

Lemma Array_map_congruent {A B C : Type} (f : A -> completion C) (g : B -> completion C)
  (h : B -> A) (l : list B) :
  (forall b, f (h b) = g b) -> Array_map f (map h l) = Array_map g l.
Proof.
  intros H. induction l as [| b l IH]; simpl; [reflexivity |].
  rewrite H, IH. reflexivity.
Qed.

Lemma raw_tableData_inline (l : list SourceDataType) :
  Raw.tableData_inline clock (raw_input l) = TableScript.tableData clock l.
Proof.
  unfold Raw.tableData_inline, TableScript.tableData, raw_input.
  rewrite (Array_map_congruent _ (TableScript.project clock) _ l raw_project_inline).
  reflexivity.
Qed.

Lemma raw_filter (l : list SourceDataType) :
  Array_filter Raw.isValidRow (raw_input l) =
    Normal (raw_input (filter Refactored.isValidRow l)).
Proof.
  unfold raw_input. induction l as [| r l IH]; [reflexivity |].
  cbn [map Array_filter]. rewrite raw_isValidRow. cbn [bind]. rewrite IH. cbn [bind].
  cbn [filter]. destruct (Refactored.isValidRow r); reflexivity.
Qed.

Lemma raw_tableData_refactored (l : list SourceDataType) :
  Raw.tableData_refactored clock (raw_input l) = Normal (Refactored.tableData clock l).
Proof.
  unfold Raw.tableData_refactored, Refactored.tableData.
  rewrite raw_filter. cbn [bind]. unfold raw_input.
  rewrite (Array_map_congruent _ (fun r => Normal (Refactored.project clock r)) _ _
             raw_project_refactored).
  rewrite (Array_map_Normal _ (Refactored.project clock)) by reflexivity.
  reflexivity.
Qed.

End Unchecked.

(** C7 fails twice.  Malformed numbers are not replaced by the defaults:
    on 15 July 2025 the record [garbled] (year-to-date rate "n/a", costs
    "n/a") makes neither pipeline throw, but its row shows "NaN%" and
    "NaN €", and the empty costs string of [empty_costs] shows "NaN €" too.
    And malformed structure does throw: for the record [null_month], whose
    [lastThreeMonthsIndividually] is [[null]], both pipelines end in a
    [TypeError] when the May lookup reads [month] of [null]. *)
Lemma malformed_input_is_not_defaulted :
  TableScript.tableData mid_july_2025 [garbled] =
    Normal [ {| person := "Max Muster"; past12Months := "0%"; y2d := "NaN%";
                may := "0%"; june := "0%"; july := "0%";
                netEarningsPrevMonth := "NaN €" |} ] /\
  Refactored.tableData mid_july_2025 [garbled] =
    [ {| person := "Max Muster"; past12Months := "0%"; y2d := "NaN%";
         may := "0%"; june := "0%"; july := "0%";
         netEarningsPrevMonth := "NaN €" |} ] /\
  "NaN%" <> "0%" /\ "NaN €" <> "0 €" /\
  getNetEarningsPrevMonth mid_july_2025 empty_costs = "NaN €" /\
  Raw.tableData_inline mid_july_2025 [Some null_month] =
    Throw (TypeError "Cannot read properties of null (reading 'month')") /\
  Raw.tableData_refactored mid_july_2025 [Some null_month] =
    Throw (TypeError "Cannot read properties of null (reading 'month')").
Proof.
  split; [vm_compute; reflexivity |]. split; [vm_compute; reflexivity |].
  split; [discriminate |]. split; [discriminate |].
  split; [vm_compute; reflexivity |]. split; reflexivity.
Qed.

(** C7, amended: on input of the data model's shapes (records in which any
    field may be absent and any string may be malformed, with no [null]
    record and no [null] array element) the projection is total.  Run on
    such input as unchecked data, neither pipeline throws: the inline
    pipeline returns the row sequence of its typed embedding (whose
    callback returns normally for every record), the refactored pipeline
    that of its own.  In every emitted row a missing or empty rate shows as
    "0%", and a missing earnings entry or a missing costs value as "0 €";
    a rate that is present, non-empty and not a number shows as "NaN%", and
    a costs value that is present and not a number, the empty string
    included, shows as "NaN €", instead of raising an error. *)
Theorem projection_never_throws (clock : Z) (sourceData : list SourceDataType) :
  (exists rows,
     Raw.tableData_inline clock (raw_input sourceData) = Normal rows /\
     TableScript.tableData clock sourceData = Normal rows) /\
  Raw.tableData_refactored clock (raw_input sourceData) =
    Normal (Refactored.tableData clock sourceData) /\
  (forall r, exists o, TableScript.project clock r = Normal o) /\
  (forall r row,
     TableScript.project clock r = Normal (Some row) \/
     Refactored.project clock r = Some row ->
     rate_shown (utilisation_of r ?. WorkforceUtilisation.utilisationRateLastTwelveMonths)
       (past12Months row) /\
     rate_shown (utilisation_of r ?. WorkforceUtilisation.utilisationRateYearToDate)
       (y2d row) /\
     rate_shown (month_rate "May" r) (may row) /\
     rate_shown (month_rate "June" r) (june row) /\
     rate_shown (month_rate "July" r) (july row) /\
     (no_match (getPrevMonthKey clock) (earnings r) ->
      netEarningsPrevMonth row = "0 €") /\
     (forall entry,
        first_match (getPrevMonthKey clock) (earnings r) entry ->
        (MonthEarnings.costs entry = None -> netEarningsPrevMonth row = "0 €") /\
        (MonthEarnings.costs entry = Some "" -> netEarningsPrevMonth row = "NaN €") /\
        (forall c, MonthEarnings.costs entry = Some c ->
                   JSNumber.parseFloat c = JSNumber.NaN ->
                   netEarningsPrevMonth row = "NaN €"))).
Proof.
  split.
  { rewrite raw_tableData_inline, TableScript_tableData_rows.
    eexists. split; reflexivity. }
  split; [apply raw_tableData_refactored |].
  split.
  { intros r. rewrite TableScript_project_row. eexists. reflexivity. }
  intros r row H. destruct (emitted_row clock r row H) as [p ->].
  cbn [row_for past12Months y2d may june july netEarningsPrevMonth].
  repeat match goal with |- _ /\ _ => split end; try apply parseRate_shown.
  - apply getNetEarningsPrevMonth_no_match.
  - intros entry Hentry.
    rewrite (getNetEarningsPrevMonth_match clock r entry Hentry).
    repeat split.
    + intros ->. rewrite toString_zero. reflexivity.
    + intros ->. reflexivity.
    + intros c -> ->. reflexivity.
Qed.

(** On 15 July 2025: the two-record input passes both pipelines as
    unchecked data; the active external without workforce data gets the
    defaults; the employee with the empty costs string gets "NaN €". *)
Lemma projection_never_throws_witness :
  (exists rows, Raw.tableData_inline mid_july_2025 (raw_input staff) = Normal rows) /\
  Raw.tableData_refactored mid_july_2025 (raw_input staff) =
    Normal (Refactored.tableData mid_july_2025 staff) /\
  (let row := row_for mid_july_2025 unnamed_external (AnExternal smith) in
   TableScript.project mid_july_2025 unnamed_external = Normal (Some row) /\
   past12Months row = "0%" /\ y2d row = "0%" /\ netEarningsPrevMonth row = "0 €") /\
  netEarningsPrevMonth (row_for mid_july_2025 empty_costs (AnEmployee emil)) = "NaN €".
Proof.
  destruct (projection_never_throws mid_july_2025 staff) as [[rows [R _]] [F [_ D]]].
  split; [exists rows; exact R |]. split; [exact F |]. split.
  - intros row.
    assert (H : TableScript.project mid_july_2025 unnamed_external = Normal (Some row))
      by (apply TableScript_project_row).
    split; [exact H |].
    destruct (D unnamed_external row (or_introl H)) as [[H12 _] [[Hy _] [_ [_ [_ [Hn _]]]]]].
    split; [apply H12; reflexivity |]. split; [apply Hy; reflexivity |].
    apply Hn. constructor.
  - assert (H : Refactored.project mid_july_2025 empty_costs =
                Some (row_for mid_july_2025 empty_costs (AnEmployee emil)))
      by (apply Refactored_project_row).
    destruct (D empty_costs _ (or_intror H)) as [_ [_ [_ [_ [_ [_ He]]]]]].
    destruct (He {| MonthEarnings.month := Some "2025-06"; MonthEarnings.costs := Some "" |})
      as [_ [Hempty _]].
    + exists [], []. split; [reflexivity |]. split; [constructor |].
      vm_compute. reflexivity.
    + apply Hempty. reflexivity.
Defined.

(** C5 fails outside the years 1001 to 9999.  For 15 July of the year 50
    the key is "1950-06", a month of another year, because the [Date]
    constructor reads a year from 0 to 99 as 1900 plus that year; for
    January of the year 1000 it is "999-12" and for February of the year
    10000 it is "10000-01", whose years do not have the four digits of
    "YYYY". *)
Lemma getPrevMonthKey_outside_four_digit_years :
  JSDate.YearFromTime july_of_year_50 = 50 /\
  JSDate.MonthFromTime july_of_year_50 = 6 /\
  getPrevMonthKey july_of_year_50 = "1950-06" /\
  getPrevMonthKey july_of_year_50 <> four_digits 50 ++ "-" ++ two_digits 6 /\
  JSDate.YearFromTime january_1000 = 1000 /\
  JSDate.MonthFromTime january_1000 = 0 /\
  getPrevMonthKey january_1000 = "999-12" /\
  getPrevMonthKey january_1000 <> four_digits 999 ++ "-" ++ two_digits 12 /\
  JSDate.YearFromTime february_10000 = 10000 /\
  JSDate.MonthFromTime february_10000 = 1 /\
  getPrevMonthKey february_10000 = "10000-01" /\
  String.length (getPrevMonthKey february_10000) <> String.length "YYYY-MM".
Proof.
  repeat split; try (vm_compute; reflexivity); vm_compute; discriminate.
Qed.
